(** * turbo-keys: the device protocol core of [turbokeys.py]

    A shallow embedding of the protocol layer of the mini keyboard
    configurator: the symbol tables, the key combo parser, and the
    [MiniKeyboard] session that frames 8-byte reports and sequences the
    layer-switch / key-set / flash-commit packets.

    Conventions.
    - Python [int] is [Z]; [<<], [|] and [&] are [Z.shiftl], [Z.lor], [Z.land]
      (Python's integers are unbounded two's complement, as [Z]'s bit
      operations are).
    - Python [str] is [string], one character per code point; the model covers
      the code points 0..255, on which [str.lower] and [str.isalpha] are
      reproduced exactly.
    - A [dict] is a [gmap string Z]; [d[k]] is the fallible lookup [d !! k]
      ([None] stands for [KeyError]).
    - The [hid] library is outside the repository: an open device is an
      oracle telling, from the writes seen so far, whether the next write
      raises; every call of [device.write] is recorded on a wire trace. *)

From Stdlib Require Import ZArith Ascii String List Bool Lia.
From stdpp Require Import base option list strings gmap.

Local Open Scope string_scope.
Local Open Scope list_scope.
Local Open Scope Z_scope.

(** ** Enumerations *)

Module KeyType.
Inductive t := BASIC | MEDIA | MOUSE | LED.

Definition value (k : t) : Z :=
  match k with
  | BASIC => 1
  | MEDIA => 2
  | MOUSE => 3
  | LED => 8
  end.
End KeyType.

Module Modifier.
Inductive t := NONE | CTRL | SHIFT | ALT | WIN | RCTRL | RSHIFT | RALT | RWIN.

Definition value (m : t) : Z :=
  match m with
  | NONE => 0
  | CTRL => 1
  | SHIFT => 2
  | ALT => 4
  | WIN => 8
  | RCTRL => 16
  | RSHIFT => 32
  | RALT => 64
  | RWIN => 128
  end.
End Modifier.

(** ** Symbol tables *)

Definition KEYCODES : gmap string Z :=
  list_to_map
    [ ("a", 4); ("b", 5); ("c", 6); ("d", 7); ("e", 8); ("f", 9); ("g", 10);
      ("h", 11); ("i", 12); ("j", 13); ("k", 14); ("l", 15); ("m", 16);
      ("n", 17); ("o", 18); ("p", 19); ("q", 20); ("r", 21); ("s", 22);
      ("t", 23); ("u", 24); ("v", 25); ("w", 26); ("x", 27); ("y", 28);
      ("z", 29);
      ("1", 30); ("2", 31); ("3", 32); ("4", 33); ("5", 34);
      ("6", 35); ("7", 36); ("8", 37); ("9", 38); ("0", 39);
      ("enter", 40); ("return", 40);
      ("escape", 41); ("esc", 41);
      ("backspace", 42);
      ("tab", 43);
      ("space", 44);
      ("minus", 45); ("-", 45);
      ("equal", 46); ("=", 46);
      ("leftbracket", 47); ("[", 47);
      ("rightbracket", 48); ("]", 48);
      ("backslash", 49); ("\", 49);
      ("semicolon", 51); (";", 51);
      ("quote", 52); ("'", 52);
      ("grave", 53); ("`", 53);
      ("comma", 54); (",", 54);
      ("period", 55); (".", 55);
      ("slash", 56); ("/", 56);
      ("capslock", 57);
      ("f1", 58); ("f2", 59); ("f3", 60); ("f4", 61); ("f5", 62); ("f6", 63);
      ("f7", 64); ("f8", 65); ("f9", 66); ("f10", 67); ("f11", 68);
      ("f12", 69);
      ("printscreen", 70); ("prtsc", 70);
      ("scrolllock", 71);
      ("pause", 72); ("break", 72);
      ("insert", 73);
      ("home", 74);
      ("pageup", 75); ("pgup", 75);
      ("delete", 76); ("del", 76);
      ("end", 77);
      ("pagedown", 78); ("pgdn", 78);
      ("right", 79); ("left", 80); ("down", 81); ("up", 82);
      ("numlock", 83);
      ("kp_divide", 84); ("kp_multiply", 85); ("kp_minus", 86);
      ("kp_plus", 87);
      ("kp_enter", 88);
      ("kp_1", 89); ("kp_2", 90); ("kp_3", 91); ("kp_4", 92); ("kp_5", 93);
      ("kp_6", 94); ("kp_7", 95); ("kp_8", 96); ("kp_9", 97); ("kp_0", 98);
      ("kp_period", 99); ("kp_dot", 99);
      ("menu", 101); ("app", 101) ].

Definition MEDIA_KEYCODES : gmap string Z :=
  list_to_map
    [ ("play", 205); ("pause", 205); ("playpause", 205);
      ("stop", 183);
      ("prev", 182); ("previous", 182);
      ("next", 181);
      ("mute", 226);
      ("volup", 233); ("volumeup", 233);
      ("voldown", 234); ("volumedown", 234) ].

(** ** Python string primitives, on the code points 0..255 *)

(** [str.lower] on one character: A-Z, and the Latin-1 capitals U+00C0..U+00DE
    other than the multiplication sign U+00D7, move up by 32. *)
Definition lower_char (c : ascii) : ascii :=
  let n := N_of_ascii c in
  if ((65 <=? n) && (n <=? 90)
      || (192 <=? n) && (n <=? 222) && negb (n =? 215))%N
  then ascii_of_N (n + 32)
  else c.

(** [s.lower()] *)
Fixpoint lower (s : string) : string :=
  match s with
  | EmptyString => EmptyString
  | String c r => String (lower_char c) (lower r)
  end.

(** [s.replace(' ', '')] *)
Fixpoint remove_spaces (s : string) : string :=
  match s with
  | EmptyString => EmptyString
  | String c r =>
      if Ascii.eqb c " " then remove_spaces r else String c (remove_spaces r)
  end.

(** [s.split(sep)] for a one-character separator: never the empty list, and
    empty fields are kept. *)
Fixpoint split (sep : ascii) (s : string) : list string :=
  match s with
  | EmptyString => [EmptyString]
  | String c r =>
      if Ascii.eqb c sep then EmptyString :: split sep r
      else match split sep r with
           | h :: t => String c h :: t
           | [] => [String c EmptyString]
           end
  end.

(** The letters among the code points 0..255 (Unicode letter categories). *)
Definition isalpha_char (c : ascii) : bool :=
  let n := N_of_ascii c in
  ((65 <=? n) && (n <=? 90) || (97 <=? n) && (n <=? 122)
   || (n =? 170) || (n =? 181) || (n =? 186)
   || (192 <=? n) && (n <=? 214) || (216 <=? n) && (n <=? 246)
   || (248 <=? n) && (n <=? 255))%N.

(** [s.isalpha()]: at least one character, all of them letters. *)
Definition isalpha (s : string) : bool :=
  match s with
  | EmptyString => false
  | _ => forallb isalpha_char (list_ascii_of_string s)
  end.

(** [part in (t1, t2, ...)] *)
Definition str_in (part : string) (names : list string) : bool :=
  existsb (String.eqb part) names.

(** [key in d] *)
Definition dict_contains (d : gmap string Z) (key : string) : bool :=
  match d !! key with
  | Some _ => true
  | None => false
  end.

(** [d.get(key, default)] *)
Definition dict_get (d : gmap string Z) (key : string) (dflt : Z) : Z :=
  match d !! key with
  | Some v => v
  | None => dflt
  end.

(** ** The key combo parser *)

(** One turn of the [for part in parts] loop on the pair
    [(modifiers, keycode)]; [None] is an uncaught [KeyError]. *)
Definition parse_part (acc : Z * Z) (part : string) : option (Z * Z) :=
  let '(modifiers, keycode) := acc in
  if str_in part ["ctrl"; "control"] then
    Some (Z.lor modifiers (Modifier.value Modifier.CTRL), keycode)
  else if String.eqb part "shift" then
    Some (Z.lor modifiers (Modifier.value Modifier.SHIFT), keycode)
  else if String.eqb part "alt" then
    Some (Z.lor modifiers (Modifier.value Modifier.ALT), keycode)
  else if str_in part ["win"; "super"; "meta"; "gui"] then
    Some (Z.lor modifiers (Modifier.value Modifier.WIN), keycode)
  else if dict_contains KEYCODES part then
    k ← KEYCODES !! part; Some (modifiers, k)
  else if (String.length part =? 1)%nat && isalpha part then
    Some (modifiers, dict_get KEYCODES part 0)
  else
    Some (modifiers, keycode).

Fixpoint parse_parts (parts : list string) (acc : Z * Z) : option (Z * Z) :=
  match parts with
  | [] => Some acc
  | part :: rest => acc' ← parse_part acc part; parse_parts rest acc'
  end.

Definition parse_key_combo (combo_str : string) : option (Z * Z) :=
  let parts := split "+" (remove_spaces (lower combo_str)) in
  parse_parts parts (0, 0).

(** ** The HID transport and the session state *)

(** A report as handed to [device.write]: the report id, then the payload. *)
Definition frame := list Z.

(** The wire trace: every call of [device.write], oldest first, with [true]
    when the call returned and [false] when it raised. *)
Definition trace := list (frame * bool).

(** An open [hid.device]: whether the next write returns, given the trace. *)
Record hid_device := { accepts : trace -> frame -> bool }.

(** The fields of [MiniKeyboard]; [device = None] is Python's [None]. *)
Record MiniKeyboard := { device : option hid_device; report_id : Z }.

(** [MiniKeyboard.__init__] *)
Definition MiniKeyboard_init : MiniKeyboard :=
  {| device := None; report_id := 3 |}.

(** The object together with the wire it writes to. *)
Record world := { self : MiniKeyboard; wire : trace }.

(** Methods are state transformers on [world]. *)
Definition M (A : Type) : Type := world -> A * world.

#[export] Instance M_ret : MRet M := fun A (a : A) w => (a, w).

#[export] Instance M_bind : MBind M := fun A B (f : A -> M B) (m : M A) w =>
  let '(a, w') := m w in f a w'.

(** The frames handed to [device.write] by [m], started in [w]. *)
Definition emitted {A} (m : M A) (w : world) : trace :=
  drop (length (wire w)) (wire (snd (m w))).

(** The result of a call that may raise. *)
Inductive outcome := Returned | Raised.

(** [self.device.write(data)]: on [None] the attribute lookup raises and
    nothing reaches the wire. *)
Definition device_write (data : frame) : M outcome := fun w =>
  match device (self w) with
  | None => (Raised, w)
  | Some d =>
      let ok := accepts d (wire w) data in
      (if ok then Returned else Raised,
       {| self := self w; wire := wire w ++ [(data, ok)] |})
  end.

(** [self.report_id = rid] *)
Definition set_report_id (rid : Z) : M unit := fun w =>
  (tt, {| self := {| device := device (self w); report_id := rid |};
          wire := wire w |}).

Definition get_self : M MiniKeyboard := fun w => (self w, w).

(** [lst * n] for [lst = [0]] *)
Definition zeros (n : nat) : list Z := repeat 0 n.

(** The [for rid in ...] loop of [_detect_version]; [true] when the loop
    left through [return]. *)
Fixpoint detect_loop (rids : list Z) (test_data : list Z) : M bool :=
  match rids with
  | [] => mret false
  | rid :: rest =>
      r ← device_write ([rid] ++ test_data);
      match r with
      | Returned => set_report_id rid;; mret true
      | Raised => detect_loop rest test_data
      end
  end.

Definition _detect_version : M unit :=
  let test_data := zeros 8 in
  returned ← detect_loop [3; 0; 2] test_data;
  if (returned : bool) then mret tt else set_report_id 3.

Definition _write_report (data : list Z) : M bool :=
  kb ← get_self;
  match device kb with
  | None => mret false
  | Some _ =>
      let report := take 8 (data ++ zeros 8) in
      r ← device_write ([report_id kb] ++ report);
      match r with
      | Returned => mret true
      | Raised => mret false
      end
  end.

Definition _send_layer_switch (layer : Z) : M bool :=
  let layer := if layer <? 1 then 1 else layer in
  _write_report [0xA1; layer; 0; 0; 0; 0; 0; 0].

Definition _send_flash_command (is_led : bool) : M bool :=
  let second_byte := if is_led then 0xA1 else 0xAA in
  _write_report [0xAA; second_byte; 0; 0; 0; 0; 0; 0].

Definition set_basic_key (physical_key keycode modifiers layer : Z) : M bool :=
  kb ← get_self;
  match device kb with
  | None => mret false
  | Some _ =>
      (if negb (report_id kb =? 0)
       then _send_layer_switch layer;; mret tt
       else mret tt);;
      let key_type := KeyType.value KeyType.BASIC in
      let type_byte :=
        if report_id kb =? 0 then Z.land key_type 0x0F
        else Z.lor (Z.shiftl layer 4) (Z.land key_type 0x0F) in
      let data := [physical_key; type_byte; 1; 0; modifiers; keycode; 0; 0] in
      sent ← _write_report data;
      if negb sent then mret false
      else _send_flash_command false
  end.

Definition set_media_key (physical_key media_keycode layer : Z) : M bool :=
  kb ← get_self;
  match device kb with
  | None => mret false
  | Some _ =>
      (if negb (report_id kb =? 0)
       then _send_layer_switch layer;; mret tt
       else mret tt);;
      let key_type := KeyType.value KeyType.MEDIA in
      let type_byte :=
        if report_id kb =? 0 then Z.land key_type 0x0F
        else Z.lor (Z.shiftl layer 4) (Z.land key_type 0x0F) in
      let data := [physical_key; type_byte; media_keycode; 0; 0; 0; 0; 0] in
      sent ← _write_report data;
      if negb sent then mret false
      else _send_flash_command false
  end.

Definition set_led_mode (mode : Z) : M bool :=
  kb ← get_self;
  match device kb with
  | None => mret false
  | Some _ =>
      let key_type := KeyType.value KeyType.LED in
      let type_byte := Z.land key_type 0x0F in
      let data := [0xB0; type_byte; mode; 0; 0; 0; 0; 0] in
      sent ← _write_report data;
      if negb sent then mret false
      else _send_flash_command true
  end.

(** [is_connected] *)
Definition is_connected (kb : MiniKeyboard) : bool :=
  match device kb with
  | Some _ => true
  | None => false
  end.

(** Transports used in the examples below. *)
Definition reliable : hid_device := {| accepts := fun _ _ => true |}.

(** Raises on the write number [n] (counted from 0 on the trace) only. *)
Definition fails_nth (n : nat) : hid_device :=
  {| accepts := fun tr _ => negb (length tr =? n)%nat |}.

(** Accepts nothing but frames under report id [rid]. *)
Definition only_report_id (rid : Z) : hid_device :=
  {| accepts := fun _ f => match f with r :: _ => r =? rid | [] => false end |}.

Definition connected (d : hid_device) (rid : Z) : world :=
  {| self := {| device := Some d; report_id := rid |}; wire := [] |}.

(** ** Vocabulary of the statements *)

(** The frame [_write_report] builds from [data]. *)
Definition report_frame (rid : Z) (data : list Z) : frame :=
  rid :: take 8 (data ++ zeros 8).

(** The world after one more call of [device.write]. *)
Definition logged (w : world) (f : frame) (ok : bool) : world :=
  {| self := self w; wire := wire w ++ [(f, ok)] |}.

Definition layer_switch_frame (rid layer : Z) : frame :=
  [rid; 0xA1; Z.max 1 layer; 0; 0; 0; 0; 0; 0].

Definition flash_frame (rid : Z) (is_led : bool) : frame :=
  [rid; 0xAA; if is_led then 0xA1 else 0xAA; 0; 0; 0; 0; 0; 0].

(** What a key-set command does once its packet [data] is built: the tail
    shared by [set_basic_key], [set_media_key] and [set_led_mode]. *)
Definition write_then_flash (data : list Z) (is_led : bool) : M bool :=
  sent ← _write_report data;
  if negb sent then mret false else _send_flash_command is_led.

(** Every frame of the trace is nine integers long. *)
Definition frames9 (tr : trace) : Prop :=
  Forall (fun e : frame * bool => length e.1 = 9%nat) tr.

(** [m] only appends to the wire, and only nine-integer frames. *)
Definition well_framed {A} (m : M A) : Prop :=
  forall w, exists tr, wire (m w).2 = wire w ++ tr /\ frames9 tr.

(** One public operation of an established session. *)
Inductive session_step : world -> world -> Prop :=
| step_set_basic_key slot keycode modifiers layer w :
    session_step w (set_basic_key slot keycode modifiers layer w).2
| step_set_media_key slot media_keycode layer w :
    session_step w (set_media_key slot media_keycode layer w).2
| step_set_led_mode mode w :
    session_step w (set_led_mode mode w).2.

(** [m] leaves the fields of the object alone. *)
Definition keeps_self {A} (m : M A) : Prop :=
  forall w, self (m w).2 = self w.

(** The parts the loop of [parse_key_combo] runs over. *)
Definition tokens (combo_str : string) : list string :=
  split "+" (remove_spaces (lower combo_str)).

(** The names of the four modifier branches. *)
Definition is_modifier_name (part : string) : bool :=
  str_in part ["ctrl"; "control"; "shift"; "alt"; "win"; "super"; "meta"; "gui"].

(** The flag a part contributes to the modifiers, 0 when it is no modifier
    name. *)
Definition modifier_flag (part : string) : Z :=
  if str_in part ["ctrl"; "control"] then 1
  else if String.eqb part "shift" then 2
  else if String.eqb part "alt" then 4
  else if str_in part ["win"; "super"; "meta"; "gui"] then 8
  else 0.

(** The guard of the last branch of the loop. *)
Definition single_letter (part : string) : bool :=
  (String.length part =? 1)%nat && isalpha part.

(** A part the parser knows: a modifier name or a key of [KEYCODES]. *)
Definition recognized (part : string) : bool :=
  is_modifier_name part || dict_contains KEYCODES part.

(** [respell s s']: [s'] is [s] with letters changed in case and spaces
    inserted. *)
Inductive respell : string -> string -> Prop :=
| respell_end : respell EmptyString EmptyString
| respell_case c c' s s' :
    lower_char c' = lower_char c -> respell s s' ->
    respell (String c s) (String c' s')
| respell_space s s' : respell s s' -> respell s (String " " s').

(** ** Device discovery, the session life cycle and the command line *)

Definition VENDOR_ID : Z := 0x1189.

Definition PRODUCT_IDS : list Z := [0x8890; 0x8840].

Definition PHYSICAL_KEYS : gmap string Z :=
  list_to_map
    [ ("key1", 1); ("key2", 2); ("key3", 3); ("key4", 4);
      ("key5", 5); ("key6", 6); ("key7", 7); ("key8", 8);
      ("key9", 9); ("key10", 10); ("key11", 11); ("key12", 12);
      ("k1_left", 13); ("knob1_left", 13); ("knob1_ccw", 13);
      ("k1_press", 14); ("knob1_press", 14); ("knob1_click", 14);
      ("k1_right", 15); ("knob1_right", 15); ("knob1_cw", 15);
      ("k2_left", 16); ("knob2_left", 16); ("knob2_ccw", 16);
      ("k2_press", 17); ("knob2_press", 17); ("knob2_click", 17);
      ("k2_right", 18); ("knob2_right", 18); ("knob2_cw", 18) ].

(** The keys of one [hid.enumerate] entry that the code reads; [None] is an
    absent key. The path is kept as text: for a path handed over as bytes the
    model starts after [decode('utf-8', errors='ignore')]. *)
Record dev_info := {
  path : option string;
  usage_page : option Z;
  interface_number : option Z }.

(** The [hid] library as the code uses it to find and open a device:
    [enumerate vid pid] lists the interfaces, and [open_path p] is the device
    behind [p] once [open_path] and [set_nonblocking] have returned, [None]
    when one of them raises. *)
Record hid_env := {
  enumerate : Z -> Z -> list dev_info;
  open_path : string -> option hid_device }.

(** [needle in s] on strings *)
Fixpoint str_contains (needle s : string) : bool :=
  String.prefix needle s
  || match s with
     | EmptyString => false
     | String _ r => str_contains needle r
     end.

(** The test of the first loop of [find_device]. *)
Definition is_mi_01 (dev : dev_info) : bool :=
  let path := default EmptyString (path dev) in
  str_contains "mi_01" (lower path).

(** The test of the fallback loop of [find_device]. *)
Definition is_vendor_interface (dev : dev_info) : bool :=
  let usage_page := default 0 (usage_page dev) in
  let iface := default (-1) (interface_number dev) in
  (usage_page =? 0xff00) || (iface =? 0).

(** The [for pid in ...] loop of [find_device]. *)
Fixpoint find_device_in (env : hid_env) (pids : list Z) : option dev_info :=
  match pids with
  | [] => None
  | pid :: rest =>
      let devices := enumerate env VENDOR_ID pid in
      match List.find is_mi_01 devices with
      | Some dev => Some dev
      | None =>
          match List.find is_vendor_interface devices with
          | Some dev => Some dev
          | None =>
              match devices with
              | dev :: _ => Some dev
              | [] => find_device_in env rest
              end
          end
      end
  end.

Definition find_device (env : hid_env) : option dev_info :=
  find_device_in env PRODUCT_IDS.

(** [self.device = d] *)
Definition set_device (d : option hid_device) : M unit := fun w =>
  (tt, {| self := {| device := d; report_id := report_id (self w) |};
          wire := wire w |}).

(** [connect]: a missing 'path' key raises inside the [try] like a failed
    open does. An entry of [hid.enumerate] is never an empty dict, so
    [if not dev_info] is the test for [None]. *)
Definition connect (env : hid_env) : M bool :=
  match find_device env with
  | None => mret false
  | Some dev_info =>
      match path dev_info ≫= open_path env with
      | Some d => set_device (Some d);; _detect_version;; mret true
      | None => set_device None;; mret false
      end
  end.

Definition disconnect : M unit :=
  kb ← get_self;
  match device kb with
  | Some _ => set_device None
  | None => mret tt
  end.

(** What [main] prints for the commands that open the device;
    [UncaughtKeyError] stands for a [KeyError] leaving [main]. *)
Inductive message :=
| CouldNotConnect
| UnknownPhysicalKey
| UnknownKey
| SetMediaKey
| SetBasicKey
| FailedToSetKeyMapping
| SetLedMode
| FailedToSetLedMode
| UncaughtKeyError.

(** The parsed arguments of the 'set' and 'led' commands. *)
Inductive args :=
| ArgsSet (key mapping : string) (layer : Z)
| ArgsLed (mode : Z).

(** The [args.command == 'set'] branch of [main]. *)
Definition main_set (key mapping : string) (layer : Z) : M message :=
  let key_name := lower key in
  if negb (dict_contains PHYSICAL_KEYS key_name) then mret UnknownPhysicalKey
  else
    match PHYSICAL_KEYS !! key_name with
    | None => mret UncaughtKeyError
    | Some physical_key =>
        let mapping := lower mapping in
        if dict_contains MEDIA_KEYCODES mapping then
          match MEDIA_KEYCODES !! mapping with
          | None => mret UncaughtKeyError
          | Some media_code =>
              ok ← set_media_key physical_key media_code layer;
              mret (if ok : bool then SetMediaKey else FailedToSetKeyMapping)
          end
        else
          match parse_key_combo mapping with
          | None => mret UncaughtKeyError
          | Some (modifiers, keycode) =>
              if keycode =? 0 then mret UnknownKey
              else
                ok ← set_basic_key physical_key keycode modifiers layer;
                mret (if ok : bool then SetBasicKey else FailedToSetKeyMapping)
          end
    end.

(** The [args.command == 'led'] branch of [main]. *)
Definition main_led (mode : Z) : M message :=
  ok ← set_led_mode mode;
  mret (if ok : bool then SetLedMode else FailedToSetLedMode).

(** [kb = MiniKeyboard()] *)
Definition new_keyboard : M unit := fun w =>
  (tt, {| self := MiniKeyboard_init; wire := wire w |}).

(** [main] from [kb = MiniKeyboard()] on, for the 'set' and 'led' commands:
    the body of the [try], then [kb.disconnect()] in the [finally]. *)
Definition main (env : hid_env) (a : args) : M message :=
  new_keyboard;;
  ok ← connect env;
  if negb ok then mret CouldNotConnect
  else
    msg ← match a with
          | ArgsSet key mapping layer => main_set key mapping layer
          | ArgsLed mode => main_led mode
          end;
    disconnect;;
    mret msg.

(** The messages of [main] that tell of a command carried out in full. *)
Definition is_success (msg : message) : bool :=
  match msg with
  | SetMediaKey | SetBasicKey | SetLedMode => true
  | _ => false
  end.

(** A host used in the examples: one keyboard under product id 0x8840 with
    a keyboard interface and a vendor interface, the latter speaking the
    report id 0 dialect. *)
Definition sample_keyboard_interface : dev_info :=
  {| path := Some "usb#vid_1189&pid_8840&mi_00";
     usage_page := Some 1;
     interface_number := Some 0 |}.

Definition sample_vendor_interface : dev_info :=
  {| path := Some "usb#vid_1189&pid_8840&MI_01";
     usage_page := Some 0xff00;
     interface_number := Some 1 |}.

Definition sample_env : hid_env :=
  {| enumerate := fun vid pid =>
       if (vid =? 0x1189) && (pid =? 0x8840)
       then [sample_keyboard_interface; sample_vendor_interface]
       else [];
     open_path := fun p =>
       if String.eqb p "usb#vid_1189&pid_8840&MI_01"
       then Some (only_report_id 0)
       else None |}.

(** ** Vocabulary of the further statements *)

(** The three public commands of a session. *)
Inductive operation :=
| OpBasicKey (physical_key keycode modifiers layer : Z)
| OpMediaKey (physical_key media_keycode layer : Z)
| OpLedMode (mode : Z).

Definition run_operation (op : operation) : M bool :=
  match op with
  | OpBasicKey physical_key keycode modifiers layer =>
      set_basic_key physical_key keycode modifiers layer
  | OpMediaKey physical_key media_keycode layer =>
      set_media_key physical_key media_keycode layer
  | OpLedMode mode => set_led_mode mode
  end.

(** The flash commit that ends [op]. *)
Definition operation_flash (rid : Z) (op : operation) : frame :=
  match op with
  | OpLedMode _ => flash_frame rid true
  | _ => flash_frame rid false
  end.

(** The layer switch that opens [op], if any. *)
Definition operation_switch (rid : Z) (op : operation) : list frame :=
  match op with
  | OpBasicKey _ _ _ layer | OpMediaKey _ _ layer =>
      if rid =? 0 then [] else [layer_switch_frame rid layer]
  | OpLedMode _ => []
  end.

(** The packet of [op], under its report id. *)
Definition operation_packet (rid : Z) (op : operation) : frame :=
  rid ::
  match op with
  | OpBasicKey physical_key keycode modifiers layer =>
      [physical_key; if rid =? 0 then 1 else Z.lor (Z.shiftl layer 4) 1;
       1; 0; modifiers; keycode; 0; 0]
  | OpMediaKey physical_key media_keycode layer =>
      [physical_key; if rid =? 0 then 2 else Z.lor (Z.shiftl layer 4) 2;
       media_keycode; 0; 0; 0; 0; 0]
  | OpLedMode mode => [0xB0; 8; mode; 0; 0; 0; 0; 0]
  end.

(** The frames a session may write under report id [rid]. *)
Definition session_frame (rid : Z) (e : frame * bool) : Prop :=
  length e.1 = 9%nat /\ head e.1 = Some rid.

(** Every entry of the frame fits one byte. *)
Definition byte_frame (f : frame) : Prop := Forall (fun b => 0 <= b <= 255) f.

(** The arguments of [op] fit their bytes, its layer the high nibble of the
    type byte. *)
Definition operation_in_bytes (op : operation) : Prop :=
  match op with
  | OpBasicKey physical_key keycode modifiers layer =>
      0 <= physical_key <= 255 /\ 0 <= keycode <= 255 /\
      0 <= modifiers <= 255 /\ 0 <= layer <= 15
  | OpMediaKey physical_key media_keycode layer =>
      0 <= physical_key <= 255 /\ 0 <= media_keycode <= 255 /\
      0 <= layer <= 15
  | OpLedMode mode => 0 <= mode <= 255
  end.

(** The same for the arguments of [main]; the key and the mapping are names
    and need no bound. *)
Definition args_in_bytes (a : args) : Prop :=
  match a with
  | ArgsSet _ _ layer => 0 <= layer <= 15
  | ArgsLed mode => 0 <= mode <= 255
  end.

(** A device whose answer to a write does not depend on earlier writes. *)
Definition stateless (d : hid_device) : Prop :=
  forall tr tr' f, accepts d tr f = accepts d tr' f.

(** A probe of [_detect_version]. *)
Definition probe_frame (rid : Z) : frame := [rid; 0; 0; 0; 0; 0; 0; 0; 0].

(** * Properties *)

(** ** Sample runs *)

Example parse_ctrl_c : parse_key_combo "ctrl+c" = Some (1, 6).
Proof. reflexivity. Qed.

Example parse_f5 : parse_key_combo "F5" = Some (0, 62).
Proof. reflexivity. Qed.

Example parse_empty_fields : parse_key_combo "+ +" = Some (0, 0).
Proof. reflexivity. Qed.

Example basic_modern :
  set_basic_key 1 4 3 2 (connected reliable 3) =
  (true, {| self := {| device := Some reliable; report_id := 3 |};
            wire := [([3; 0xA1; 2; 0; 0; 0; 0; 0; 0], true);
                     ([3; 1; 0x21; 1; 0; 3; 4; 0; 0], true);
                     ([3; 0xAA; 0xAA; 0; 0; 0; 0; 0; 0], true)] |}).
Proof. reflexivity. Qed.

(** ** Running the state transformers *)

Lemma bind_run {A B} (m : M A) (f : A -> M B) (w : world) :
  (m ≫= f) w = f (m w).1 (m w).2.
Proof. unfold mbind, M_bind. destruct (m w); reflexivity. Qed.

Lemma write_report_disconnected data w :
  device (self w) = None -> _write_report data w = (false, w).
Proof.
  intros Hd. unfold _write_report.
  rewrite bind_run. unfold get_self; simpl. rewrite Hd. reflexivity.
Qed.

Lemma write_report_connected d data w :
  device (self w) = Some d ->
  let f := report_frame (report_id (self w)) data in
  let ok := accepts d (wire w) f in
  _write_report data w = (ok, logged w f ok).
Proof.
  intros Hd. cbv zeta. unfold _write_report, report_frame, logged.
  rewrite bind_run. unfold get_self; simpl. rewrite Hd.
  rewrite bind_run. unfold device_write. rewrite Hd. simpl.
  destruct (accepts d _ _); reflexivity.
Qed.

Lemma logged_wire w f ok : wire (logged w f ok) = wire w ++ [(f, ok)].
Proof. reflexivity. Qed.

(** ** The command sequences on an open device *)

Lemma send_layer_switch_connected d layer w :
  device (self w) = Some d ->
  let f := layer_switch_frame (report_id (self w)) layer in
  _send_layer_switch layer w =
  (accepts d (wire w) f, logged w f (accepts d (wire w) f)).
Proof.
  intros Hd. cbv zeta. unfold _send_layer_switch.
  rewrite (write_report_connected d) by exact Hd.
  unfold report_frame, layer_switch_frame; simpl.
  replace (if layer <? 1 then 1 else layer) with (Z.max 1 layer); [reflexivity|].
  destruct (Z.ltb_spec layer 1); lia.
Qed.

Lemma send_flash_command_connected d is_led w :
  device (self w) = Some d ->
  let f := flash_frame (report_id (self w)) is_led in
  _send_flash_command is_led w =
  (accepts d (wire w) f, logged w f (accepts d (wire w) f)).
Proof.
  intros Hd. cbv zeta. unfold _send_flash_command.
  rewrite (write_report_connected d) by exact Hd. reflexivity.
Qed.

Lemma write_then_flash_connected d data is_led w :
  device (self w) = Some d ->
  let key := report_frame (report_id (self w)) data in
  let b := accepts d (wire w) key in
  let w' := logged w key b in
  let fl := flash_frame (report_id (self w)) is_led in
  write_then_flash data is_led w =
  if b then (accepts d (wire w') fl, logged w' fl (accepts d (wire w') fl))
  else (false, w').
Proof.
  intros Hd. cbv zeta. unfold write_then_flash.
  rewrite bind_run, (write_report_connected d) by exact Hd. simpl.
  destruct (accepts d (wire w) _); simpl; [|reflexivity].
  rewrite (send_flash_command_connected d) by exact Hd. reflexivity.
Qed.

Lemma set_basic_key_legacy d slot keycode modifiers layer w :
  device (self w) = Some d -> report_id (self w) = 0 ->
  set_basic_key slot keycode modifiers layer w =
  write_then_flash [slot; 1; 1; 0; modifiers; keycode; 0; 0] false w.
Proof.
  intros Hd Hr. unfold set_basic_key, write_then_flash.
  rewrite bind_run. unfold get_self; simpl. rewrite Hd, Hr. reflexivity.
Qed.

Lemma set_basic_key_modern d slot keycode modifiers layer w :
  device (self w) = Some d -> report_id (self w) <> 0 ->
  let ls := layer_switch_frame (report_id (self w)) layer in
  set_basic_key slot keycode modifiers layer w =
  write_then_flash
    [slot; Z.lor (Z.shiftl layer 4) 1; 1; 0; modifiers; keycode; 0; 0] false
    (logged w ls (accepts d (wire w) ls)).
Proof.
  intros Hd Hr. cbv zeta. unfold set_basic_key, write_then_flash.
  rewrite bind_run. unfold get_self; simpl. rewrite Hd.
  apply Z.eqb_neq in Hr. rewrite Hr. simpl.
  rewrite bind_run, (bind_run (_send_layer_switch layer)).
  rewrite (send_layer_switch_connected d) by exact Hd. reflexivity.
Qed.

Lemma set_media_key_legacy d slot media_keycode layer w :
  device (self w) = Some d -> report_id (self w) = 0 ->
  set_media_key slot media_keycode layer w =
  write_then_flash [slot; 2; media_keycode; 0; 0; 0; 0; 0] false w.
Proof.
  intros Hd Hr. unfold set_media_key, write_then_flash.
  rewrite bind_run. unfold get_self; simpl. rewrite Hd, Hr. reflexivity.
Qed.

Lemma set_media_key_modern d slot media_keycode layer w :
  device (self w) = Some d -> report_id (self w) <> 0 ->
  let ls := layer_switch_frame (report_id (self w)) layer in
  set_media_key slot media_keycode layer w =
  write_then_flash
    [slot; Z.lor (Z.shiftl layer 4) 2; media_keycode; 0; 0; 0; 0; 0] false
    (logged w ls (accepts d (wire w) ls)).
Proof.
  intros Hd Hr. cbv zeta. unfold set_media_key, write_then_flash.
  rewrite bind_run. unfold get_self; simpl. rewrite Hd.
  apply Z.eqb_neq in Hr. rewrite Hr. simpl.
  rewrite bind_run, (bind_run (_send_layer_switch layer)).
  rewrite (send_layer_switch_connected d) by exact Hd. reflexivity.
Qed.

Lemma set_led_mode_connected d mode w :
  device (self w) = Some d ->
  set_led_mode mode w = write_then_flash [0xB0; 8; mode; 0; 0; 0; 0; 0] true w.
Proof.
  intros Hd. unfold set_led_mode, write_then_flash.
  rewrite bind_run. unfold get_self; simpl. rewrite Hd. reflexivity.
Qed.

(** ** Traces *)

Lemma emitted_unfold {A} (m : M A) w tr :
  wire (m w).2 = wire w ++ tr -> emitted m w = tr.
Proof. intros H. unfold emitted. rewrite H. apply drop_app_length. Qed.

(** The outcome and the trace of the shared tail: the flash-commit frame is
    written exactly when the packet write returned, and the call succeeds
    exactly when both did. *)
Lemma write_then_flash_run d data is_led w :
  device (self w) = Some d ->
  let key := report_frame (report_id (self w)) data in
  let fl := flash_frame (report_id (self w)) is_led in
  exists b2 b3 : bool,
    b2 = accepts d (wire w) key /\
    (write_then_flash data is_led w).1 = b2 && b3 /\
    self (write_then_flash data is_led w).2 = self w /\
    wire (write_then_flash data is_led w).2 =
      wire w ++ (key, b2) :: (if b2 then [(fl, b3)] else []).
Proof.
  intros Hd key fl.
  pose proof (write_then_flash_connected d data is_led w Hd) as E.
  cbv zeta in E. fold key fl in E.
  exists (accepts d (wire w) key).
  destruct (accepts d (wire w) key) eqn:Hk.
  - eexists. rewrite E. simpl. repeat split; try reflexivity.
    rewrite <- app_assoc. reflexivity.
  - exists false. rewrite E. simpl. repeat split; reflexivity.
Qed.

Lemma emitted_write_then_flash d data is_led w :
  device (self w) = Some d ->
  let key := report_frame (report_id (self w)) data in
  let fl := flash_frame (report_id (self w)) is_led in
  exists b2 b3 : bool,
    b2 = accepts d (wire w) key /\
    (write_then_flash data is_led w).1 = b2 && b3 /\
    emitted (write_then_flash data is_led) w =
      (key, b2) :: (if b2 then [(fl, b3)] else []).
Proof.
  intros Hd key fl.
  destruct (write_then_flash_run d data is_led w Hd) as (b2 & b3 & E1 & E2 & _ & E3).
  exists b2, b3. repeat split; try assumption.
  apply emitted_unfold, E3.
Qed.

(** C1. On an open device, when the write of the key packet does not raise:
    under report id 2 or 3 [set_basic_key] hands exactly three frames to the
    device, the layer switch, the key packet
    [slot, (layer<<4)|1, 1, 0, modifiers, keycode, 0, 0] and the flash commit;
    under report id 0 it hands exactly two, the key packet with type byte 1
    whatever the layer, and the flash commit. *)
Theorem set_basic_key_frames (d : hid_device) (w : world)
    (slot keycode modifiers layer : Z) :
  device (self w) = Some d ->
  let rid := report_id (self w) in
  let run := set_basic_key slot keycode modifiers layer in
  (rid = 2 \/ rid = 3 ->
   let key :=
     [rid; slot; Z.lor (Z.shiftl layer 4) 0x1; 1; 0; modifiers; keycode; 0; 0]
   in
   (key, false) ∉ emitted run w ->
   (emitted run w).*1 =
     [ [rid; 0xA1; Z.max 1 layer; 0; 0; 0; 0; 0; 0];
       key;
       [rid; 0xAA; 0xAA; 0; 0; 0; 0; 0; 0] ]) /\
  (rid = 0 ->
   let key := [0; slot; 0x1; 1; 0; modifiers; keycode; 0; 0] in
   (key, false) ∉ emitted run w ->
   (emitted run w).*1 = [ key; [0; 0xAA; 0xAA; 0; 0; 0; 0; 0; 0] ]).
Proof.
  intros Hd rid run. split.
  - intros Hrid key Hok.
    assert (Hne : report_id (self w) <> 0) by (fold rid; lia).
    pose proof (set_basic_key_modern d slot keycode modifiers layer w Hd Hne)
      as E. cbv zeta in E.
    set (ls := layer_switch_frame (report_id (self w)) layer) in E.
    set (w1 := logged w ls (accepts d (wire w) ls)) in E.
    destruct (write_then_flash_run d
                [slot; Z.lor (Z.shiftl layer 4) 1; 1; 0; modifiers; keycode; 0; 0]
                false w1 Hd) as (b2 & b3 & _ & _ & _ & Hw).
    assert (Hem : emitted run w =
                  (ls, accepts d (wire w) ls) :: (key, b2)
                  :: (if b2 then [(flash_frame rid false, b3)] else [])).
    { apply emitted_unfold. unfold run. rewrite E, Hw.
      unfold w1. rewrite logged_wire, <- app_assoc. reflexivity. }
    rewrite Hem in Hok |- *.
    destruct b2; [reflexivity|].
    exfalso. apply Hok. rewrite !elem_of_cons. auto.
  - intros Hrid key Hok.
    pose proof (set_basic_key_legacy d slot keycode modifiers layer w Hd Hrid)
      as E.
    destruct (emitted_write_then_flash d
                [slot; 1; 1; 0; modifiers; keycode; 0; 0] false w Hd)
      as (b2 & b3 & _ & _ & Hem).
    assert (Hem' : emitted run w =
                   (key, b2) :: (if b2 then [(flash_frame 0 false, b3)] else [])).
    { unfold emitted, run. rewrite E. fold (emitted (write_then_flash
        [slot; 1; 1; 0; modifiers; keycode; 0; 0] false) w).
      rewrite Hem. fold rid. rewrite Hrid. reflexivity. }
    rewrite Hem' in Hok |- *.
    destruct b2; [reflexivity|].
    exfalso. apply Hok. rewrite !elem_of_cons. auto.
Qed.

Lemma set_basic_key_frames_witness :
  (emitted (set_basic_key 5 62 0 2) (connected reliable 3)).*1 =
    [ [3; 0xA1; 2; 0; 0; 0; 0; 0; 0];
      [3; 5; 0x21; 1; 0; 0; 62; 0; 0];
      [3; 0xAA; 0xAA; 0; 0; 0; 0; 0; 0] ] /\
  (emitted (set_basic_key 5 62 0 2) (connected reliable 0)).*1 =
    [ [0; 5; 0x01; 1; 0; 0; 62; 0; 0];
      [0; 0xAA; 0xAA; 0; 0; 0; 0; 0; 0] ].
Proof.
  split.
  - refine (proj1 (set_basic_key_frames reliable (connected reliable 3)
                     5 62 0 2 eq_refl) (or_intror eq_refl) _).
    vm_compute. intros H.
    repeat (apply elem_of_cons in H as [H|H]; [discriminate H|]).
    apply elem_of_nil in H. exact H.
  - refine (proj2 (set_basic_key_frames reliable (connected reliable 0)
                     5 62 0 2 eq_refl) eq_refl _).
    vm_compute. intros H.
    repeat (apply elem_of_cons in H as [H|H]; [discriminate H|]).
    apply elem_of_nil in H. exact H.
Defined.

(** C5. On an open device, under any report id and for any mode, when the
    write of the LED packet does not raise, [set_led_mode] hands exactly two
    frames to the device: the LED packet [0xB0, 8, mode, 0, 0, 0, 0, 0] and
    the flash commit whose second byte is 0xA1; neither is a layer switch. *)
Theorem set_led_mode_frames (d : hid_device) (w : world) (mode : Z) :
  device (self w) = Some d ->
  let rid := report_id (self w) in
  let led := [rid; 0xB0; 0x8; mode; 0; 0; 0; 0; 0] in
  (led, false) ∉ emitted (set_led_mode mode) w ->
  (emitted (set_led_mode mode) w).*1 =
    [ led; [rid; 0xAA; 0xA1; 0; 0; 0; 0; 0; 0] ] /\
  Forall (fun f : frame => f !! 1%nat <> Some 0xA1)
         (emitted (set_led_mode mode) w).*1.
Proof.
  intros Hd rid led Hok.
  destruct (emitted_write_then_flash d [0xB0; 8; mode; 0; 0; 0; 0; 0] true w Hd)
    as (b2 & b3 & _ & _ & Hem).
  assert (Hem' : emitted (set_led_mode mode) w =
                 (led, b2) :: (if b2 then [(flash_frame rid true, b3)] else [])).
  { unfold emitted. rewrite (set_led_mode_connected d) by exact Hd. exact Hem. }
  rewrite Hem' in Hok |- *.
  destruct b2.
  - split; [reflexivity|].
    repeat constructor; simpl; intros [=].
  - exfalso. apply Hok. rewrite !elem_of_cons. auto.
Qed.

Lemma set_led_mode_frames_witness :
  (emitted (set_led_mode 2) (connected reliable 0)).*1 =
    [ [0; 0xB0; 0x8; 2; 0; 0; 0; 0; 0]; [0; 0xAA; 0xA1; 0; 0; 0; 0; 0; 0] ].
Proof.
  refine (proj1 (set_led_mode_frames reliable (connected reliable 0) 2
                   eq_refl _)).
  vm_compute. intros H.
  repeat (apply elem_of_cons in H as [H|H]; [discriminate H|]).
  apply elem_of_nil in H. exact H.
Defined.

(** C8. With no open device, [set_basic_key], [set_media_key] and
    [set_led_mode] (and [_write_report] under them) return [False], hand no
    frame to any device and leave the object and the wire as they were. *)
Theorem not_connected_fails (w : world) :
  device (self w) = None ->
  (forall slot keycode modifiers layer,
      set_basic_key slot keycode modifiers layer w = (false, w) /\
      emitted (set_basic_key slot keycode modifiers layer) w = []) /\
  (forall slot media_keycode layer,
      set_media_key slot media_keycode layer w = (false, w) /\
      emitted (set_media_key slot media_keycode layer) w = []) /\
  (forall mode,
      set_led_mode mode w = (false, w) /\
      emitted (set_led_mode mode) w = []) /\
  (forall data,
      _write_report data w = (false, w) /\
      emitted (_write_report data) w = []).
Proof.
  intros Hd.
  assert (Hnil : forall (m : M bool), m w = (false, w) -> emitted m w = []).
  { intros m E. apply emitted_unfold. rewrite E. simpl.
    symmetry. apply app_nil_r. }
  repeat split; try (apply Hnil).
  all: try (unfold set_basic_key, set_media_key, set_led_mode;
            rewrite bind_run; unfold get_self; simpl; rewrite Hd; reflexivity).
  all: apply write_report_disconnected, Hd.
Qed.

Lemma not_connected_fails_witness :
  set_basic_key 1 4 0 1 {| self := MiniKeyboard_init; wire := [] |} =
  (false, {| self := MiniKeyboard_init; wire := [] |}).
Proof.
  apply (proj1 (not_connected_fails {| self := MiniKeyboard_init; wire := [] |}
                  eq_refl) 1 4 0 1).
Defined.

(** ** Framing *)

Lemma well_framed_ret {A} (a : A) : well_framed (mret a : M A).
Proof. intros w. exists []. split; [symmetry; apply app_nil_r | constructor]. Qed.

Lemma well_framed_bind {A B} (m : M A) (f : A -> M B) :
  well_framed m -> (forall a, well_framed (f a)) -> well_framed (m ≫= f).
Proof.
  intros Hm Hf w. rewrite bind_run.
  destruct (Hm w) as (tr1 & E1 & F1).
  destruct (Hf (m w).1 (m w).2) as (tr2 & E2 & F2).
  exists (tr1 ++ tr2). split.
  - rewrite E2, E1, app_assoc. reflexivity.
  - apply Forall_app; split; assumption.
Qed.

Lemma well_framed_get_self : well_framed get_self.
Proof. intros w. exists []. split; [symmetry; apply app_nil_r | constructor]. Qed.

Lemma well_framed_set_report_id rid : well_framed (set_report_id rid).
Proof. intros w. exists []. split; [symmetry; apply app_nil_r | constructor]. Qed.

Lemma well_framed_device_write (f : frame) :
  length f = 9%nat -> well_framed (device_write f).
Proof.
  intros Hf w. unfold device_write. destruct (device (self w)).
  - eexists. split; [reflexivity|]. repeat constructor. exact Hf.
  - exists []. split; [symmetry; apply app_nil_r | constructor].
Qed.

Lemma length_payload (data : list Z) : length (take 8 (data ++ zeros 8)) = 8%nat.
Proof.
  rewrite length_take, length_app. unfold zeros. rewrite repeat_length. lia.
Qed.

Lemma take_zeros (n m : nat) : (n <= m)%nat -> take n (zeros m) = zeros n.
Proof.
  unfold zeros. revert m. induction n as [|n IH]; intros [|m] Hle;
    simpl; try reflexivity; try lia.
  f_equal. apply IH. lia.
Qed.

Create HintDb framing.

#[local] Hint Resolve well_framed_ret well_framed_get_self
  well_framed_set_report_id : framing.

Ltac framing :=
  repeat first
    [ progress intros
    | apply well_framed_bind
    | apply well_framed_device_write; simpl; (reflexivity || (f_equal; apply length_payload))
    | match goal with
      | |- well_framed (match ?x with _ => _ end) => destruct x
      end
    | solve [auto with framing] ].

Lemma well_framed_write_report data : well_framed (_write_report data).
Proof. unfold _write_report. framing. Qed.

#[local] Hint Resolve well_framed_write_report : framing.

Lemma well_framed_send_layer_switch layer : well_framed (_send_layer_switch layer).
Proof. unfold _send_layer_switch. framing. Qed.

Lemma well_framed_send_flash_command is_led :
  well_framed (_send_flash_command is_led).
Proof. unfold _send_flash_command. framing. Qed.

#[local] Hint Resolve well_framed_send_layer_switch
  well_framed_send_flash_command : framing.

Lemma well_framed_set_basic_key slot keycode modifiers layer :
  well_framed (set_basic_key slot keycode modifiers layer).
Proof. unfold set_basic_key. framing. Qed.

Lemma well_framed_set_media_key slot media_keycode layer :
  well_framed (set_media_key slot media_keycode layer).
Proof. unfold set_media_key. framing. Qed.

Lemma well_framed_set_led_mode mode : well_framed (set_led_mode mode).
Proof. unfold set_led_mode. framing. Qed.

Lemma well_framed_detect_loop rids :
  well_framed (detect_loop rids (zeros 8)).
Proof. induction rids as [|rid rest IH]; simpl; framing. Qed.

Lemma well_framed_detect_version : well_framed _detect_version.
Proof.
  unfold _detect_version. apply well_framed_bind.
  - apply well_framed_detect_loop.
  - framing.
Qed.

(** C9. On an open device [_write_report] hands the device exactly one frame,
    the report id followed by the payload cut or padded to eight entries:
    a payload of at most eight entries is followed by zeros, a longer one
    keeps its first eight. Every method of the session appends only
    nine-entry frames to the wire. *)
Theorem write_report_frame :
  (forall (d : hid_device) (w : world) (data : list Z),
      device (self w) = Some d ->
      let payload := take 8 (data ++ zeros 8) in
      (exists ok : bool,
          emitted (_write_report data) w =
            [(report_id (self w) :: payload, ok)]) /\
      length (report_id (self w) :: payload) = 9%nat /\
      ((length data <= 8)%nat ->
       payload = data ++ zeros (8 - length data)) /\
      ((8 <= length data)%nat -> payload = take 8 data)) /\
  (forall data, well_framed (_write_report data)) /\
  well_framed _detect_version /\
  (forall layer, well_framed (_send_layer_switch layer)) /\
  (forall is_led, well_framed (_send_flash_command is_led)) /\
  (forall slot keycode modifiers layer,
      well_framed (set_basic_key slot keycode modifiers layer)) /\
  (forall slot media_keycode layer,
      well_framed (set_media_key slot media_keycode layer)) /\
  (forall mode, well_framed (set_led_mode mode)).
Proof.
  split; [|auto 10 using well_framed_write_report, well_framed_detect_version,
             well_framed_send_layer_switch, well_framed_send_flash_command,
             well_framed_set_basic_key, well_framed_set_media_key,
             well_framed_set_led_mode].
  intros d w data Hd payload. repeat split.
  - eexists. apply emitted_unfold.
    rewrite (write_report_connected d) by exact Hd. reflexivity.
  - simpl. f_equal. apply length_payload.
  - intros Hle. unfold payload.
    rewrite take_app_ge by exact Hle.
    f_equal. apply take_zeros. lia.
  - intros Hge. unfold payload. apply take_app_le. exact Hge.
Qed.

Lemma write_report_frame_witness :
  take 8 ([1; 2; 3] ++ zeros 8) = [1; 2; 3] ++ zeros (8 - 3) /\
  take 8 ([1; 2; 3; 4; 5; 6; 7; 8; 9; 10] ++ zeros 8) =
    take 8 [1; 2; 3; 4; 5; 6; 7; 8; 9; 10].
Proof.
  split.
  - apply (proj1 (proj2 (proj2 (proj1 write_report_frame reliable
                                  (connected reliable 3) [1; 2; 3] eq_refl)))).
    simpl. lia.
  - apply (proj2 (proj2 (proj2 (proj1 write_report_frame reliable
                                  (connected reliable 3)
                                  [1; 2; 3; 4; 5; 6; 7; 8; 9; 10] eq_refl)))).
    simpl. lia.
Defined.

(** ** Failures inside a command sequence *)

(** Under report id 2 or 3 the outcome of [set_basic_key] is that of the key
    packet and the flash commit alone: the flash commit is not sent after a
    failed key packet, and the call does not succeed when either of the two
    fails. The outcome [b1] of the layer switch plays no part. *)
Lemma set_basic_key_modern_run d slot keycode modifiers layer w :
  device (self w) = Some d -> report_id (self w) <> 0 ->
  let rid := report_id (self w) in
  exists b1 b2 b3 : bool,
    b1 = accepts d (wire w) (layer_switch_frame rid layer) /\
    (set_basic_key slot keycode modifiers layer w).1 = b2 && b3 /\
    emitted (set_basic_key slot keycode modifiers layer) w =
      (layer_switch_frame rid layer, b1)
      :: ([rid; slot; Z.lor (Z.shiftl layer 4) 1; 1; 0; modifiers; keycode; 0; 0],
          b2)
      :: (if b2 then [(flash_frame rid false, b3)] else []).
Proof.
  intros Hd Hne rid.
  pose proof (set_basic_key_modern d slot keycode modifiers layer w Hd Hne) as E.
  cbv zeta in E. fold rid in E.
  set (ls := layer_switch_frame rid layer) in *.
  set (w1 := logged w ls (accepts d (wire w) ls)) in E.
  destruct (write_then_flash_run d
              [slot; Z.lor (Z.shiftl layer 4) 1; 1; 0; modifiers; keycode; 0; 0]
              false w1 Hd) as (b2 & b3 & _ & Hres & _ & Hw).
  exists (accepts d (wire w) ls), b2, b3. repeat split.
  - rewrite E. exact Hres.
  - apply emitted_unfold. rewrite E, Hw.
    unfold w1. rewrite logged_wire, <- app_assoc. reflexivity.
Qed.

Lemma set_media_key_modern_run d slot media_keycode layer w :
  device (self w) = Some d -> report_id (self w) <> 0 ->
  let rid := report_id (self w) in
  exists b1 b2 b3 : bool,
    b1 = accepts d (wire w) (layer_switch_frame rid layer) /\
    (set_media_key slot media_keycode layer w).1 = b2 && b3 /\
    emitted (set_media_key slot media_keycode layer) w =
      (layer_switch_frame rid layer, b1)
      :: ([rid; slot; Z.lor (Z.shiftl layer 4) 2; media_keycode; 0; 0; 0; 0; 0],
          b2)
      :: (if b2 then [(flash_frame rid false, b3)] else []).
Proof.
  intros Hd Hne rid.
  pose proof (set_media_key_modern d slot media_keycode layer w Hd Hne) as E.
  cbv zeta in E. fold rid in E.
  set (ls := layer_switch_frame rid layer) in *.
  set (w1 := logged w ls (accepts d (wire w) ls)) in E.
  destruct (write_then_flash_run d
              [slot; Z.lor (Z.shiftl layer 4) 2; media_keycode; 0; 0; 0; 0; 0]
              false w1 Hd) as (b2 & b3 & _ & Hres & _ & Hw).
  exists (accepts d (wire w) ls), b2, b3. repeat split.
  - rewrite E. exact Hres.
  - apply emitted_unfold. rewrite E, Hw.
    unfold w1. rewrite logged_wire, <- app_assoc. reflexivity.
Qed.

(** C2. The code at a failing layer switch: on a device under report id 3
    whose first write raises and whose later writes return,
    [set_basic_key 1 4 0 1] and [set_media_key 1 233 1] still hand the key
    packet and the flash commit to the device and return [True]. *)
Theorem layer_switch_failure_not_reported :
  set_basic_key 1 4 0 1 (connected (fails_nth 0) 3) =
    (true,
     {| self := {| device := Some (fails_nth 0); report_id := 3 |};
        wire := [ ([3; 0xA1; 1; 0; 0; 0; 0; 0; 0], false);
                  ([3; 1; 0x11; 1; 0; 0; 4; 0; 0], true);
                  ([3; 0xAA; 0xAA; 0; 0; 0; 0; 0; 0], true) ] |}) /\
  set_media_key 1 233 1 (connected (fails_nth 0) 3) =
    (true,
     {| self := {| device := Some (fails_nth 0); report_id := 3 |};
        wire := [ ([3; 0xA1; 1; 0; 0; 0; 0; 0; 0], false);
                  ([3; 1; 0x12; 233; 0; 0; 0; 0; 0], true);
                  ([3; 0xAA; 0xAA; 0; 0; 0; 0; 0; 0], true) ] |}).
Proof. split; reflexivity. Qed.

(** The other failures of C2 at concrete transports: a failed key packet
    stops the sequence, a failed flash commit is reported. *)
Example key_packet_failure_aborts :
  set_basic_key 1 4 0 1 (connected (fails_nth 1) 3) =
    (false,
     {| self := {| device := Some (fails_nth 1); report_id := 3 |};
        wire := [ ([3; 0xA1; 1; 0; 0; 0; 0; 0; 0], true);
                  ([3; 1; 0x11; 1; 0; 0; 4; 0; 0], false) ] |}).
Proof. reflexivity. Qed.

Example flash_commit_failure_reported :
  set_basic_key 1 4 0 1 (connected (fails_nth 2) 3) =
    (false,
     {| self := {| device := Some (fails_nth 2); report_id := 3 |};
        wire := [ ([3; 0xA1; 1; 0; 0; 0; 0; 0; 0], true);
                  ([3; 1; 0x11; 1; 0; 0; 4; 0; 0], true);
                  ([3; 0xAA; 0xAA; 0; 0; 0; 0; 0; 0], false) ] |}).
Proof. reflexivity. Qed.

(** C3. The code at layer 0: on a device under report id 3 that accepts every
    write, [set_basic_key 1 4 0 0] sends a layer switch to layer 1 and then a
    key packet whose type byte is 0x01, built from the layer as given. No
    integer layer makes the call raise: the methods are total. *)
Theorem layer_zero_type_byte_not_clamped :
  set_basic_key 1 4 0 0 (connected reliable 3) =
    (true,
     {| self := {| device := Some reliable; report_id := 3 |};
        wire := [ ([3; 0xA1; 1; 0; 0; 0; 0; 0; 0], true);
                  ([3; 1; 0x01; 1; 0; 0; 4; 0; 0], true);
                  ([3; 0xAA; 0xAA; 0; 0; 0; 0; 0; 0], true) ] |}) /\
  Z.lor (Z.shiftl 1 4) 0x1 = 0x11.
Proof. split; reflexivity. Qed.

(** ** The session after detection *)

Lemma keeps_self_ret {A} (a : A) : keeps_self (mret a : M A).
Proof. intros w. reflexivity. Qed.

Lemma keeps_self_bind {A B} (m : M A) (f : A -> M B) :
  keeps_self m -> (forall a, keeps_self (f a)) -> keeps_self (m ≫= f).
Proof. intros Hm Hf w. rewrite bind_run, Hf, Hm. reflexivity. Qed.

Lemma keeps_self_get_self : keeps_self get_self.
Proof. intros w. reflexivity. Qed.

Lemma keeps_self_device_write f : keeps_self (device_write f).
Proof. intros w. unfold device_write. destruct (device (self w)); reflexivity. Qed.

Create HintDb keeping.

#[local] Hint Resolve keeps_self_ret keeps_self_get_self
  keeps_self_device_write : keeping.

Ltac keeping :=
  repeat first
    [ progress intros
    | apply keeps_self_bind
    | match goal with
      | |- keeps_self (match ?x with _ => _ end) => destruct x
      end
    | solve [auto with keeping] ].

Lemma keeps_self_write_report data : keeps_self (_write_report data).
Proof. unfold _write_report. keeping. Qed.

#[local] Hint Resolve keeps_self_write_report : keeping.

Lemma keeps_self_send_layer_switch layer : keeps_self (_send_layer_switch layer).
Proof. unfold _send_layer_switch. keeping. Qed.

Lemma keeps_self_send_flash_command is_led :
  keeps_self (_send_flash_command is_led).
Proof. unfold _send_flash_command. keeping. Qed.

#[local] Hint Resolve keeps_self_send_layer_switch
  keeps_self_send_flash_command : keeping.

Lemma keeps_self_set_basic_key slot keycode modifiers layer :
  keeps_self (set_basic_key slot keycode modifiers layer).
Proof. unfold set_basic_key. keeping. Qed.

Lemma keeps_self_set_media_key slot media_keycode layer :
  keeps_self (set_media_key slot media_keycode layer).
Proof. unfold set_media_key. keeping. Qed.

Lemma keeps_self_set_led_mode mode : keeps_self (set_led_mode mode).
Proof. unfold set_led_mode. keeping. Qed.

Lemma session_step_self w w' : session_step w w' -> self w' = self w.
Proof.
  intros [slot keycode modifiers layer w0|slot media_keycode layer w0|mode w0].
  - apply keeps_self_set_basic_key.
  - apply keeps_self_set_media_key.
  - apply keeps_self_set_led_mode.
Qed.

Lemma session_steps_self w w' : rtc session_step w w' -> self w' = self w.
Proof.
  induction 1 as [|w1 w2 w3 Hstep _ IH]; [reflexivity|].
  rewrite IH. apply session_step_self, Hstep.
Qed.

(** C4. On an open device [_detect_version] probes report ids 3, 0 and 2 in
    this order, each with eight zero bytes, stops at the first write that
    returns and keeps its id; when all three raise it keeps 3. When the probe
    under 3 raises and the probe under 0 returns, the report id is 0 after
    detection and after every later operation of the session. *)
Theorem detect_version_order (d : hid_device) (w : world) :
  device (self w) = Some d ->
  let probe (rid : Z) : frame := [rid; 0; 0; 0; 0; 0; 0; 0; 0] in
  let b3 := accepts d (wire w) (probe 3) in
  let b0 := accepts d (wire w ++ [(probe 3, false)]) (probe 0) in
  let b2 :=
    accepts d (wire w ++ [(probe 3, false); (probe 0, false)]) (probe 2) in
  let w' := (_detect_version w).2 in
  emitted _detect_version w =
    (if b3 then [(probe 3, true)]
     else if b0 then [(probe 3, false); (probe 0, true)]
     else [(probe 3, false); (probe 0, false); (probe 2, b2)]) /\
  report_id (self w') =
    (if b3 then 3 else if b0 then 0 else if b2 then 2 else 3) /\
  device (self w') = Some d /\
  (b3 = false -> b0 = true ->
   report_id (self w') = 0 /\
   forall w'', rtc session_step w' w'' -> report_id (self w'') = 0).
Proof.
  intros Hd probe b3 b0 b2 w'.
  assert (Hrun :
    _detect_version w =
    (tt, {| self := {| device := Some d;
                       report_id := if b3 then 3 else if b0 then 0
                                    else if b2 then 2 else 3 |};
            wire := wire w ++
                    (if b3 then [(probe 3, true)]
                     else if b0 then [(probe 3, false); (probe 0, true)]
                     else [(probe 3, false); (probe 0, false); (probe 2, b2)])
         |})).
  { unfold _detect_version, detect_loop, zeros. simpl repeat.
    unfold mbind, M_bind, device_write, set_report_id, mret, M_ret.
    simpl. rewrite Hd. fold (probe 3). fold b3.
    destruct b3; simpl; [rewrite Hd; reflexivity|].
    rewrite Hd. fold (probe 0). fold b0.
    destruct b0; simpl; [rewrite Hd, <- app_assoc; reflexivity|].
    rewrite Hd, <- app_assoc. simpl. fold (probe 2). fold b2.
    destruct b2; simpl; rewrite ?Hd, <- app_assoc; reflexivity. }
  assert (Hrid : report_id (self w') =
                 (if b3 then 3 else if b0 then 0 else if b2 then 2 else 3)).
  { unfold w'. rewrite Hrun. reflexivity. }
  split; [|split; [|split]].
  - apply emitted_unfold. rewrite Hrun. reflexivity.
  - exact Hrid.
  - unfold w'. rewrite Hrun. reflexivity.
  - intros Hb3 Hb0.
    assert (H0 : report_id (self w') = 0) by (rewrite Hrid, Hb3, Hb0; reflexivity).
    split; [exact H0|].
    intros w'' Hsteps. rewrite (session_steps_self _ _ Hsteps). exact H0.
Qed.

Lemma detect_version_order_witness :
  let w' := (_detect_version (connected (only_report_id 0) 3)).2 in
  report_id (self w') = 0 /\
  report_id (self (set_led_mode 1 w').2) = 0.
Proof.
  pose proof (proj2 (proj2 (proj2 (detect_version_order (only_report_id 0)
                                     (connected (only_report_id 0) 3) eq_refl)))
                eq_refl eq_refl) as [H0 Hlater].
  split; [exact H0|].
  apply Hlater, rtc_once, step_set_led_mode.
Defined.

(** Without a device every probe raises before reaching the wire, and the
    report id falls back to 3. *)
Lemma detect_version_disconnected w :
  device (self w) = None ->
  _detect_version w =
  (tt, {| self := {| device := None; report_id := 3 |}; wire := wire w |}).
Proof.
  intros Hd. unfold _detect_version, detect_loop.
  unfold mbind, M_bind, device_write, set_report_id, mret, M_ret.
  repeat (rewrite Hd; simpl). reflexivity.
Qed.

(** ** Parsing *)

#[local] Arguments parse_part : simpl never.

Lemma parse_part_cases (m k : Z) (part : string) :
  parse_part (m, k) part =
  if is_modifier_name part then Some (Z.lor m (modifier_flag part), k)
  else match KEYCODES !! part with
       | Some k' => Some (m, k')
       | None => if single_letter part then Some (m, 0) else Some (m, k)
       end.
Proof.
  unfold parse_part, is_modifier_name, modifier_flag, single_letter,
    dict_contains, dict_get, str_in.
  destruct (KEYCODES !! part) as [k'|]; cbn [existsb];
    destruct (String.eqb part "ctrl"), (String.eqb part "control"),
      (String.eqb part "shift"), (String.eqb part "alt"),
      (String.eqb part "win"), (String.eqb part "super"),
      (String.eqb part "meta"), (String.eqb part "gui");
    reflexivity.
Qed.

Lemma modifier_flag_other part :
  is_modifier_name part = false -> modifier_flag part = 0.
Proof.
  unfold is_modifier_name, modifier_flag, str_in. cbn [existsb].
  destruct (String.eqb part "ctrl"), (String.eqb part "control"),
    (String.eqb part "shift"), (String.eqb part "alt"),
    (String.eqb part "win"), (String.eqb part "super"),
    (String.eqb part "meta"), (String.eqb part "gui");
    (reflexivity || discriminate).
Qed.

Lemma modifier_flag_nibble part : Z.land (modifier_flag part) 15 = modifier_flag part.
Proof.
  unfold modifier_flag.
  destruct (str_in part _); [reflexivity|].
  destruct (String.eqb part "shift"); [reflexivity|].
  destruct (String.eqb part "alt"); [reflexivity|].
  destruct (str_in part _); reflexivity.
Qed.

Lemma modifier_names_not_keys part :
  is_modifier_name part = true -> KEYCODES !! part = None.
Proof.
  unfold is_modifier_name, str_in. cbn [existsb].
  rewrite !orb_true_iff, !String.eqb_eq.
  intros H. repeat (destruct H as [H|H]; [subst part; reflexivity|]).
  discriminate H.
Qed.

(** One turn of the loop never raises: it ORs the part's flag into the
    modifiers and yields some keycode. *)
Lemma parse_part_modifiers (m k : Z) (part : string) :
  exists k', parse_part (m, k) part = Some (Z.lor m (modifier_flag part), k').
Proof.
  rewrite parse_part_cases.
  destruct (is_modifier_name part) eqn:Hm; [eauto|].
  rewrite (modifier_flag_other _ Hm), Z.lor_0_r.
  destruct (KEYCODES !! part); [eauto|].
  destruct (single_letter part); eauto.
Qed.

Lemma parse_parts_modifiers (parts : list string) (m k : Z) :
  exists k',
    parse_parts parts (m, k) =
    Some (fold_left Z.lor (map modifier_flag parts) m, k').
Proof.
  revert m k. induction parts as [|part rest IH]; intros m k;
    cbn [parse_parts map fold_left].
  - eauto.
  - destruct (parse_part_modifiers m k part) as [k1 E]. rewrite E.
    cbn [mbind option_bind]. apply IH.
Qed.

Lemma fold_lor_nibble (flags : list Z) (m : Z) :
  Z.land m 15 = m ->
  Forall (fun f => Z.land f 15 = f) flags ->
  Z.land (fold_left Z.lor flags m) 15 = fold_left Z.lor flags m.
Proof.
  intros Hm Hall. revert m Hm.
  induction Hall as [|f flags Hf _ IH]; intros m Hm; simpl; [exact Hm|].
  apply IH. rewrite Z.land_lor_distr_l, Hm, Hf. reflexivity.
Qed.

Lemma nibble_range (m : Z) : Z.land m 15 = m -> 0 <= m <= 15.
Proof.
  intros H. change 15 with (Z.ones 4) in H.
  rewrite Z.land_ones in H by lia.
  pose proof (Z.mod_pos_bound m (2 ^ 4) ltac:(lia)). lia.
Qed.

Lemma parse_key_combo_modifiers (combo_str : string) :
  exists k,
    parse_key_combo combo_str =
    Some (fold_left Z.lor (map modifier_flag (tokens combo_str)) 0, k).
Proof. apply parse_parts_modifiers. Qed.

(** C10. For every input string the parser returns, and the modifiers it
    returns lie in 0..15: they have no bit outside CTRL|SHIFT|ALT|WIN, so
    none of RCTRL, RSHIFT, RALT and RWIN. *)
Theorem parsed_modifiers_left_side (combo_str : string) :
  exists modifiers keycode,
    parse_key_combo combo_str = Some (modifiers, keycode) /\
    0 <= modifiers <= 15 /\
    Z.land modifiers
      (Z.lor (Z.lor (Modifier.value Modifier.CTRL) (Modifier.value Modifier.SHIFT))
             (Z.lor (Modifier.value Modifier.ALT) (Modifier.value Modifier.WIN)))
      = modifiers /\
    Z.land modifiers (Modifier.value Modifier.RCTRL) = 0 /\
    Z.land modifiers (Modifier.value Modifier.RSHIFT) = 0 /\
    Z.land modifiers (Modifier.value Modifier.RALT) = 0 /\
    Z.land modifiers (Modifier.value Modifier.RWIN) = 0.
Proof.
  destruct (parse_key_combo_modifiers combo_str) as [k E].
  set (m := fold_left Z.lor (map modifier_flag (tokens combo_str)) 0) in E.
  assert (Hm : Z.land m 15 = m).
  { apply fold_lor_nibble; [reflexivity|].
    apply List.Forall_map, List.Forall_forall. intros p _.
    apply modifier_flag_nibble. }
  assert (Hr : forall r, Z.land 15 r = 0 -> Z.land m r = 0).
  { intros r Hr. rewrite <- Hm, <- Z.land_assoc, Hr. apply Z.land_0_r. }
  exists m, k. split; [exact E|]. split; [apply nibble_range, Hm|].
  split; [exact Hm|].
  repeat split; apply Hr; reflexivity.
Qed.

(** ** Re-spelling an input *)

Lemma respell_tokens s s' : respell s s' -> tokens s' = tokens s.
Proof.
  intros H. unfold tokens. f_equal.
  induction H as [|c c' s s' Hc _ IH|s s' _ IH]; simpl.
  - reflexivity.
  - rewrite Hc, IH. reflexivity.
  - exact IH.
Qed.

Lemma respell_parse s s' :
  respell s s' -> parse_key_combo s' = parse_key_combo s.
Proof.
  intros H. unfold parse_key_combo.
  change (parse_parts (tokens s') (0, 0) = parse_parts (tokens s) (0, 0)).
  rewrite (respell_tokens _ _ H). reflexivity.
Qed.

(** ** Which part sets the keycode *)

Lemma parse_parts_total (parts : list string) (acc : Z * Z) :
  exists acc', parse_parts parts acc = Some acc'.
Proof.
  destruct acc as [m k].
  destruct (parse_parts_modifiers parts m k) as [k' E]. eauto.
Qed.

Lemma parse_parts_app (pre post : list string) (acc : Z * Z) :
  exists acc', parse_parts pre acc = Some acc' /\
               parse_parts (pre ++ post) acc = parse_parts post acc'.
Proof.
  revert acc. induction pre as [|p pre IH]; intros acc;
    cbn [parse_parts app].
  - eauto.
  - destruct acc as [m k].
    destruct (parse_part_modifiers m k p) as [k1 E]. rewrite E.
    cbn [mbind option_bind]. apply IH.
Qed.

(** Parts that are neither keys of [KEYCODES] nor single letters keep the
    keycode. *)
Lemma parse_parts_keep_keycode (post : list string) (m k : Z) :
  Forall (fun p => KEYCODES !! p = None /\ single_letter p = false) post ->
  exists m', parse_parts post (m, k) = Some (m', k).
Proof.
  intros Hall. revert m.
  induction Hall as [|p post [Hk Hs] _ IH]; intros m; cbn [parse_parts].
  - eauto.
  - rewrite parse_part_cases, Hk, Hs.
    destruct (is_modifier_name p); cbn [mbind option_bind]; apply IH.
Qed.

Lemma parse_last_key_name (pre post : list string) (t : string) (k : Z) acc :
  KEYCODES !! t = Some k ->
  Forall (fun p => KEYCODES !! p = None /\ single_letter p = false) post ->
  exists m, parse_parts (pre ++ t :: post) acc = Some (m, k).
Proof.
  intros Ht Hpost.
  destruct (parse_parts_app pre (t :: post) acc) as ([m0 k0] & _ & E).
  rewrite E. cbn [parse_parts]. rewrite parse_part_cases.
  destruct (is_modifier_name t) eqn:Hm.
  - rewrite (modifier_names_not_keys _ Hm) in Ht. discriminate Ht.
  - rewrite Ht. cbn [mbind option_bind].
    apply parse_parts_keep_keycode, Hpost.
Qed.

(** C6. The parser runs over the parts of the lower-cased, space-free input
    between the '+' signs; its modifiers are the OR of the flags of the
    modifier names among them, and its keycode is the [KEYCODES] entry of a
    key name that no later key name or single letter follows. In particular
    "ctrl+shift+a" parses to modifiers 3 and keycode 4, and so does every
    re-spelling of it in another case or with spaces inserted. *)
Theorem parse_key_combo_combo :
  tokens " Ctrl + SHIFT+a" = ["ctrl"; "shift"; "a"] /\
  (forall s, exists k,
      parse_key_combo s =
      Some (fold_left Z.lor (map modifier_flag (tokens s)) 0, k)) /\
  (forall s pre t post k,
      tokens s = pre ++ t :: post ->
      KEYCODES !! t = Some k ->
      Forall (fun p => KEYCODES !! p = None /\ single_letter p = false) post ->
      exists m, parse_key_combo s = Some (m, k)) /\
  parse_key_combo "ctrl+shift+a" = Some (3, 4) /\
  (forall s s', respell s s' -> parse_key_combo s' = parse_key_combo s) /\
  (forall s', respell "ctrl+shift+a" s' -> parse_key_combo s' = Some (3, 4)).
Proof.
  split; [reflexivity|].
  split; [exact parse_key_combo_modifiers|].
  split.
  { intros s pre t post k Hs Ht Hpost. unfold parse_key_combo.
    change (exists m, parse_parts (tokens s) (0, 0) = Some (m, k)).
    rewrite Hs. apply parse_last_key_name; assumption. }
  split; [vm_compute; reflexivity|].
  split; [exact respell_parse|].
  intros s' H. rewrite (respell_parse _ _ H). vm_compute. reflexivity.
Qed.

Lemma parse_key_combo_combo_witness :
  parse_key_combo "Ctrl + Shift + A" = Some (3, 4) /\
  (exists m, parse_key_combo "f5+ctrl" = Some (m, 62)).
Proof.
  split.
  - apply (proj2 (proj2 (proj2 (proj2 (proj2 parse_key_combo_combo))))).
    repeat first [ apply respell_end
                 | apply respell_case; [reflexivity|]
                 | apply respell_space ].
  - apply (proj1 (proj2 (proj2 parse_key_combo_combo))
             "f5+ctrl" [] "f5" ["ctrl"] 62).
    + reflexivity.
    + reflexivity.
    + repeat constructor.
Defined.

(** A part that is not recognized and is no single letter leaves the
    modifiers and the keycode as they are. *)
Lemma parse_part_unrecognized (acc : Z * Z) (part : string) :
  recognized part = false -> single_letter part = false ->
  parse_part acc part = Some acc.
Proof.
  intros Hr Hs. destruct acc as [m k]. rewrite parse_part_cases.
  unfold recognized, dict_contains in Hr. apply orb_false_iff in Hr as [Hm Hk].
  rewrite Hm, Hs. destruct (KEYCODES !! part); [discriminate Hk|reflexivity].
Qed.

(** On a zero keycode an unrecognized part changes nothing at all. *)
Lemma parse_part_unrecognized_zero (m : Z) (part : string) :
  recognized part = false -> parse_part (m, 0) part = Some (m, 0).
Proof.
  intros Hr. rewrite parse_part_cases.
  unfold recognized, dict_contains in Hr. apply orb_false_iff in Hr as [Hm Hk].
  rewrite Hm. destruct (KEYCODES !! part); [discriminate Hk|].
  destruct (single_letter part); reflexivity.
Qed.

Lemma parse_parts_unrecognized (parts : list string) (m : Z) :
  Forall (fun t => recognized t = false) parts ->
  parse_parts parts (m, 0) = Some (m, 0).
Proof.
  induction 1 as [|t parts Ht _ IH]; cbn [parse_parts]; [reflexivity|].
  rewrite (parse_part_unrecognized_zero _ _ Ht). exact IH.
Qed.

Lemma media_tokens (t : string) :
  dict_contains MEDIA_KEYCODES t = true ->
  t ∈ ["play"; "pause"; "playpause"; "stop"; "prev"; "previous"; "next";
       "mute"; "volup"; "volumeup"; "voldown"; "volumedown"].
Proof.
  unfold dict_contains. destruct (MEDIA_KEYCODES !! t) as [v|] eqn:E;
    [intros _|discriminate].
  apply elem_of_list_to_map_2 in E.
  repeat (apply elem_of_cons in E as [E|E];
          [injection E as -> _; rewrite !elem_of_cons; tauto|]).
  apply elem_of_nil in E. destruct E.
Qed.

(** C7, as the code has it. A part that is neither a modifier name nor a key
    of [KEYCODES], and no single letter, is skipped; an input made of
    unrecognized parts only parses to (0, 0), as "unknownxyz" does; the names
    of the media table other than "pause" parse to (0, 0), as "volup" does;
    and no input makes the parser raise. *)
Theorem unrecognized_tokens_yield_zero :
  (forall acc part,
      recognized part = false -> single_letter part = false ->
      parse_part acc part = Some acc) /\
  (forall s,
      Forall (fun t => recognized t = false) (tokens s) ->
      parse_key_combo s = Some (0, 0)) /\
  parse_key_combo "unknownxyz" = Some (0, 0) /\
  (forall t,
      dict_contains MEDIA_KEYCODES t = true -> t <> "pause" ->
      parse_key_combo t = Some (0, 0)) /\
  parse_key_combo "volup" = Some (0, 0) /\
  (forall s, is_Some (parse_key_combo s)).
Proof.
  split; [exact parse_part_unrecognized|].
  split; [intros s Hs; apply parse_parts_unrecognized, Hs|].
  split; [vm_compute; reflexivity|].
  split.
  { intros t Ht Hne. apply media_tokens in Ht.
    repeat (apply elem_of_cons in Ht as [->|Ht];
            [first [contradiction Hne; reflexivity | vm_compute; reflexivity]|]).
    apply elem_of_nil in Ht. destruct Ht. }
  split; [vm_compute; reflexivity|].
  intros s. destruct (parse_parts_total (tokens s) (0, 0)) as [acc E].
  exists acc. exact E.
Qed.

Lemma unrecognized_tokens_yield_zero_witness :
  parse_key_combo "foo + volup+" = Some (0, 0) /\
  parse_key_combo "mute" = Some (0, 0).
Proof.
  split.
  - apply (proj1 (proj2 unrecognized_tokens_yield_zero) "foo + volup+").
    vm_compute. repeat constructor.
  - apply (proj1 (proj2 (proj2 (proj2 unrecognized_tokens_yield_zero))) "mute").
    + reflexivity.
    + discriminate.
Defined.

(** The media table and the keycode table share the name "pause": the combo
    parser resolves this media-table name, to keycode 72 (Pause/Break). *)
Lemma media_token_pause_resolves :
  MEDIA_KEYCODES !! "pause" = Some 205 /\
  parse_key_combo "pause" = Some (0, 72).
Proof. split; vm_compute; reflexivity. Qed.

(** The last branch of the loop is reached only by single letters that are
    not keys of [KEYCODES], and sets the keycode to 0: after "a", the letter
    U+00E9 puts the keycode back to 0. *)
Lemma single_letter_resets_keycode :
  let e_acute := String "233"%char EmptyString in
  recognized e_acute = false /\ single_letter e_acute = true /\
  parse_part (0, 4) e_acute = Some (0, 0) /\
  parse_key_combo (String "a" (String "+" e_acute)) = Some (0, 0).
Proof. cbv zeta. repeat split; vm_compute; reflexivity. Qed.

(** * Further properties of the session *)

Lemma run_operation_disconnected op w :
  device (self w) = None -> run_operation op w = (false, w).
Proof.
  intros Hd. destruct op; simpl;
    unfold set_basic_key, set_media_key, set_led_mode;
    rewrite bind_run; unfold get_self; simpl; rewrite Hd; reflexivity.
Qed.

Lemma write_then_flash_trace d data is_led w :
  device (self w) = Some d ->
  exists b2 b3 : bool,
    write_then_flash data is_led w =
    (b2 && b3,
     {| self := self w;
        wire := wire w ++
                (report_frame (report_id (self w)) data, b2)
                :: (if b2
                    then [(flash_frame (report_id (self w)) is_led, b3)]
                    else []) |}).
Proof.
  intros Hd.
  destruct (write_then_flash_run d data is_led w Hd)
    as (b2 & b3 & _ & Hres & Hself & Hwire).
  exists b2, b3.
  destruct (write_then_flash data is_led w) as [r [s t]]; simpl in *.
  subst. reflexivity.
Qed.

(** The whole run of a public command on an open device, for every
    transport: an optional layer switch whose outcome is dropped, the packet,
    and the flash commit exactly when the packet write returned. *)
Lemma run_operation_connected d op w :
  device (self w) = Some d ->
  let rid := report_id (self w) in
  exists b1 b2 b3 : bool,
    run_operation op w =
    (b2 && b3,
     {| self := self w;
        wire := wire w
                ++ map (fun f => (f, b1)) (operation_switch rid op)
                ++ (operation_packet rid op, b2)
                   :: (if b2 then [(operation_flash rid op, b3)] else []) |}).
Proof.
  intros Hd rid.
  destruct op as [slot keycode modifiers layer|slot code layer|mode];
    unfold operation_switch, operation_packet, operation_flash; simpl.
  - destruct (rid =? 0) eqn:E0;
      [apply Z.eqb_eq in E0 as H0|apply Z.eqb_neq in E0 as Hne].
    + rewrite (set_basic_key_legacy d) by assumption.
      destruct (write_then_flash_trace d
                  [slot; 1; 1; 0; modifiers; keycode; 0; 0] false w Hd)
        as (b2 & b3 & E).
      exists true, b2, b3. rewrite E. reflexivity.
    + rewrite (set_basic_key_modern d) by assumption. fold rid.
      set (ls := layer_switch_frame rid layer).
      set (w1 := logged w ls (accepts d (wire w) ls)).
      destruct (write_then_flash_trace d
                  [slot; Z.lor (Z.shiftl layer 4) 1; 1; 0; modifiers; keycode;
                   0; 0] false w1 Hd) as (b2 & b3 & E).
      exists (accepts d (wire w) ls), b2, b3. rewrite E.
      unfold w1. rewrite logged_wire, <- app_assoc. reflexivity.
  - destruct (rid =? 0) eqn:E0;
      [apply Z.eqb_eq in E0 as H0|apply Z.eqb_neq in E0 as Hne].
    + rewrite (set_media_key_legacy d) by assumption.
      destruct (write_then_flash_trace d
                  [slot; 2; code; 0; 0; 0; 0; 0] false w Hd)
        as (b2 & b3 & E).
      exists true, b2, b3. rewrite E. reflexivity.
    + rewrite (set_media_key_modern d) by assumption. fold rid.
      set (ls := layer_switch_frame rid layer).
      set (w1 := logged w ls (accepts d (wire w) ls)).
      destruct (write_then_flash_trace d
                  [slot; Z.lor (Z.shiftl layer 4) 2; code; 0; 0; 0; 0; 0]
                  false w1 Hd) as (b2 & b3 & E).
      exists (accepts d (wire w) ls), b2, b3. rewrite E.
      unfold w1. rewrite logged_wire, <- app_assoc. reflexivity.
  - rewrite (set_led_mode_connected d) by assumption.
    destruct (write_then_flash_trace d [0xB0; 8; mode; 0; 0; 0; 0; 0] true w Hd)
      as (b2 & b3 & E).
    exists true, b2, b3. rewrite E. reflexivity.
Qed.

(** X1. On an open device and for every transport, a public command writes
    its optional layer switch, then its packet, then its flash commit exactly
    when the packet write returned; it returns [True] exactly when the packet
    write and the flash commit both returned, whatever became of the layer
    switch. *)
Theorem operation_trace (d : hid_device) (op : operation) (w : world) :
  device (self w) = Some d ->
  let rid := report_id (self w) in
  exists b1 b2 b3 : bool,
    (run_operation op w).1 = b2 && b3 /\
    emitted (run_operation op) w =
      map (fun f => (f, b1)) (operation_switch rid op)
      ++ (operation_packet rid op, b2)
         :: (if b2 then [(operation_flash rid op, b3)] else []).
Proof.
  intros Hd rid.
  destruct (run_operation_connected d op w Hd) as (b1 & b2 & b3 & E).
  exists b1, b2, b3. split.
  - rewrite E. reflexivity.
  - apply emitted_unfold. rewrite E. reflexivity.
Qed.

Lemma operation_trace_witness :
  exists b1 b2 b3 : bool,
    (set_media_key 13 233 2 (connected (fails_nth 2) 3)).1 = b2 && b3 /\
    emitted (set_media_key 13 233 2) (connected (fails_nth 2) 3) =
      [([3; 0xA1; 2; 0; 0; 0; 0; 0; 0], b1);
       ([3; 13; 0x22; 233; 0; 0; 0; 0; 0], b2)]
      ++ (if b2 then [([3; 0xAA; 0xAA; 0; 0; 0; 0; 0; 0], b3)] else []).
Proof.
  exact (operation_trace (fails_nth 2) (OpMediaKey 13 233 2)
           (connected (fails_nth 2) 3) eq_refl).
Defined.

Lemma last_two {A} (l : list A) (x y : A) : last (l ++ [x; y]) = Some y.
Proof.
  change (last (l ++ ([x] ++ [y])) = Some y).
  rewrite app_assoc. apply last_snoc.
Qed.

(** X2. On an open device a public command returns the outcome of the last
    write it handed to the device; when it returns [True] that write is its
    flash commit, and when it returns [False] nothing follows the write that
    raised. *)
Theorem operation_result_is_last_write (d : hid_device) (op : operation)
    (w : world) :
  device (self w) = Some d ->
  let rid := report_id (self w) in
  let result := (run_operation op w).1 in
  exists f : frame,
    last (emitted (run_operation op) w) = Some (f, result) /\
    (result = true -> f = operation_flash rid op) /\
    (result = false ->
     f = operation_packet rid op \/ f = operation_flash rid op).
Proof.
  intros Hd rid result.
  destruct (run_operation_connected d op w Hd) as (b1 & b2 & b3 & E).
  assert (Hem : emitted (run_operation op) w =
                map (fun f => (f, b1)) (operation_switch rid op)
                ++ (operation_packet rid op, b2)
                   :: (if b2 then [(operation_flash rid op, b3)] else [])).
  { apply emitted_unfold. rewrite E. reflexivity. }
  assert (Hres : result = b2 && b3) by (unfold result; rewrite E; reflexivity).
  rewrite Hem, Hres.
  destruct b2; simpl.
  - exists (operation_flash rid op).
    rewrite last_two. auto.
  - exists (operation_packet rid op).
    rewrite last_snoc. split; [reflexivity|]. split; [discriminate|auto].
Qed.

Lemma operation_result_is_last_write_witness :
  exists f : frame,
    last (emitted (set_led_mode 1) (connected (fails_nth 1) 0)) =
      Some (f, (set_led_mode 1 (connected (fails_nth 1) 0)).1).
Proof.
  destruct (operation_result_is_last_write (fails_nth 1) (OpLedMode 1)
              (connected (fails_nth 1) 0) eq_refl) as (f & H & _).
  exists f. exact H.
Defined.

(** X3. Under report id 0 the layer argument has no effect at all: the key
    commands return the same result and leave the same world for any two
    layers. *)
Theorem legacy_ignores_layer (w : world) :
  report_id (self w) = 0 ->
  forall layer layer' : Z,
    (forall slot keycode modifiers,
        set_basic_key slot keycode modifiers layer w =
        set_basic_key slot keycode modifiers layer' w) /\
    (forall slot media_keycode,
        set_media_key slot media_keycode layer w =
        set_media_key slot media_keycode layer' w).
Proof.
  intros Hr layer layer'.
  destruct (device (self w)) as [d|] eqn:Hd.
  - split; intros.
    + rewrite !(set_basic_key_legacy d) by assumption. reflexivity.
    + rewrite !(set_media_key_legacy d) by assumption. reflexivity.
  - split; intros.
    + transitivity (false, w);
        [|symmetry];
        apply (run_operation_disconnected (OpBasicKey _ _ _ _) w Hd).
    + transitivity (false, w);
        [|symmetry];
        apply (run_operation_disconnected (OpMediaKey _ _ _) w Hd).
Qed.

Lemma legacy_ignores_layer_witness :
  set_basic_key 1 4 0 1 (connected reliable 0) =
  set_basic_key 1 4 0 3 (connected reliable 0).
Proof.
  exact (proj1 (legacy_ignores_layer (connected reliable 0) eq_refl 1 3) 1 4 0).
Defined.

Lemma type_byte_fields (layer key_type : Z) :
  0 <= key_type < 16 ->
  Z.shiftr (Z.lor (Z.shiftl layer 4) key_type) 4 = layer /\
  Z.land (Z.lor (Z.shiftl layer 4) key_type) 15 = key_type.
Proof.
  intros Hk. split.
  - rewrite Z.shiftr_lor, Z.shiftr_shiftl_l, Z.sub_diag, Z.shiftl_0_r by lia.
    rewrite (Z.shiftr_div_pow2 key_type) by lia.
    rewrite Z.div_small by lia. apply Z.lor_0_r.
  - rewrite Z.land_lor_distr_l.
    change 15 with (Z.ones 4). rewrite !Z.land_ones by lia.
    rewrite Z.shiftl_mul_pow2, Z.mod_mul by lia.
    rewrite Z.mod_small by lia. reflexivity.
Qed.

(** X4. Under a non-zero report id the second frame written by
    [set_basic_key] and [set_media_key] carries a type byte that decodes back
    to its parts, for every integer layer: shifted right by four it is the
    layer, and its low nibble is the key type, 1 or 2. *)
Theorem type_byte_decodes (d : hid_device) (w : world) (slot layer : Z) :
  device (self w) = Some d -> report_id (self w) <> 0 ->
  (forall keycode modifiers, exists (f : frame) (ok : bool) (tb : Z),
      emitted (set_basic_key slot keycode modifiers layer) w !! 1%nat
        = Some (f, ok) /\
      f !! 2%nat = Some tb /\
      Z.shiftr tb 4 = layer /\
      Z.land tb 15 = KeyType.value KeyType.BASIC) /\
  (forall media_keycode, exists (f : frame) (ok : bool) (tb : Z),
      emitted (set_media_key slot media_keycode layer) w !! 1%nat
        = Some (f, ok) /\
      f !! 2%nat = Some tb /\
      Z.shiftr tb 4 = layer /\
      Z.land tb 15 = KeyType.value KeyType.MEDIA).
Proof.
  intros Hd Hne. apply Z.eqb_neq in Hne. split.
  - intros keycode modifiers.
    destruct (run_operation_connected d (OpBasicKey slot keycode modifiers layer)
                w Hd) as (b1 & b2 & b3 & E).
    cbv zeta in E. unfold operation_switch, operation_packet in E.
    simpl in E. rewrite Hne in E.
    eexists _, b2, _. split.
    { erewrite emitted_unfold by (rewrite E; reflexivity). reflexivity. }
    split; [reflexivity|].
    apply (type_byte_fields layer 1). lia.
  - intros media_keycode.
    destruct (run_operation_connected d (OpMediaKey slot media_keycode layer)
                w Hd) as (b1 & b2 & b3 & E).
    cbv zeta in E. unfold operation_switch, operation_packet in E.
    simpl in E. rewrite Hne in E.
    eexists _, b2, _. split.
    { erewrite emitted_unfold by (rewrite E; reflexivity). reflexivity. }
    split; [reflexivity|].
    apply (type_byte_fields layer 2). lia.
Qed.

Lemma type_byte_decodes_witness :
  exists (f : frame) (ok : bool) (tb : Z),
    emitted (set_basic_key 7 62 1 3) (connected reliable 2) !! 1%nat
      = Some (f, ok) /\
    f !! 2%nat = Some tb /\ Z.shiftr tb 4 = 3 /\ Z.land tb 15 = 1.
Proof.
  refine (proj1 (type_byte_decodes reliable (connected reliable 2) 7 3
                   eq_refl _) 62 1).
  simpl. lia.
Defined.

(** ** Invariants of a session *)

Lemma session_step_operation w w' :
  session_step w w' -> exists op, w' = (run_operation op w).2.
Proof.
  intros [slot keycode modifiers layer w0|slot code layer w0|mode w0].
  - exists (OpBasicKey slot keycode modifiers layer). reflexivity.
  - exists (OpMediaKey slot code layer). reflexivity.
  - exists (OpLedMode mode). reflexivity.
Qed.

Lemma operation_frames (rid : Z) (op : operation) (b1 b2 b3 : bool) :
  Forall (session_frame rid)
    (map (fun f => (f, b1)) (operation_switch rid op)
     ++ (operation_packet rid op, b2)
        :: (if b2 then [(operation_flash rid op, b3)] else [])) /\
  (length
     (map (fun f => (f, b1)) (operation_switch rid op)
      ++ (operation_packet rid op, b2)
         :: (if b2 then [(operation_flash rid op, b3)] else [])) <= 3)%nat.
Proof.
  unfold session_frame.
  destruct op; unfold operation_switch, operation_packet, operation_flash;
    destruct (rid =? 0), b2; cbn [map app length]; split;
    try lia;
    repeat (apply List.Forall_cons; [split; reflexivity|]);
    apply List.Forall_nil.
Qed.

Lemma run_operation_appends (op : operation) (w : world) :
  exists tr,
    (run_operation op w).2 = {| self := self w; wire := wire w ++ tr |} /\
    (length tr <= 3)%nat /\
    Forall (session_frame (report_id (self w))) tr.
Proof.
  destruct (device (self w)) as [d|] eqn:Hd.
  - destruct (run_operation_connected d op w Hd) as (b1 & b2 & b3 & E).
    cbv zeta in E. rewrite E. eexists. split; [reflexivity|].
    destruct (operation_frames (report_id (self w)) op b1 b2 b3). auto.
  - rewrite (run_operation_disconnected op w Hd). exists []. simpl.
    rewrite app_nil_r. destruct w; simpl. repeat split; [lia|constructor].
Qed.

(** X5. Over any sequence of public commands the object keeps its device and
    its report id, the wire only grows, and every frame added is nine entries
    long and starts with the report id of the session; one command adds at
    most three frames. *)
Theorem session_invariants :
  (forall op w, exists tr,
      (run_operation op w).2 = {| self := self w; wire := wire w ++ tr |} /\
      (length tr <= 3)%nat /\
      Forall (session_frame (report_id (self w))) tr) /\
  (forall w w', rtc session_step w w' ->
      exists tr,
        w' = {| self := self w; wire := wire w ++ tr |} /\
        Forall (session_frame (report_id (self w))) tr).
Proof.
  split; [exact run_operation_appends|].
  intros w w' Hsteps.
  induction Hsteps as [w|w1 w2 w3 Hstep _ IH].
  - exists []. rewrite app_nil_r. destruct w; split; [reflexivity|constructor].
  - apply session_step_operation in Hstep as [op ->].
    destruct (run_operation_appends op w1) as (tr1 & E1 & _ & F1).
    destruct IH as (tr2 & E2 & F2).
    rewrite E1 in E2, F2. simpl in E2, F2.
    exists (tr1 ++ tr2). split.
    + rewrite E2, app_assoc. reflexivity.
    + apply Forall_app; split; assumption.
Qed.

Lemma session_invariants_witness :
  exists tr,
    (set_led_mode 2 (set_basic_key 1 4 0 1 (connected reliable 3)).2).2 =
      {| self := self (connected reliable 3); wire := [] ++ tr |} /\
    Forall (session_frame 3) tr.
Proof.
  apply (proj2 session_invariants (connected reliable 3)).
  eapply rtc_l; [apply step_set_basic_key|].
  apply rtc_once, step_set_led_mode.
Defined.

(** ** Detection *)

Lemma detect_version_connected d w :
  device (self w) = Some d ->
  let b3 := accepts d (wire w) (probe_frame 3) in
  let b0 := accepts d (wire w ++ [(probe_frame 3, false)]) (probe_frame 0) in
  let b2 :=
    accepts d (wire w ++ [(probe_frame 3, false); (probe_frame 0, false)])
      (probe_frame 2) in
  _detect_version w =
  (tt, {| self := {| device := Some d;
                     report_id := if b3 then 3 else if b0 then 0
                                  else if b2 then 2 else 3 |};
          wire := wire w ++
                  (if b3 then [(probe_frame 3, true)]
                   else if b0 then [(probe_frame 3, false); (probe_frame 0, true)]
                   else [(probe_frame 3, false); (probe_frame 0, false);
                         (probe_frame 2, b2)]) |}).
Proof.
  intros Hd b3 b0 b2.
  unfold _detect_version, detect_loop, zeros. simpl repeat.
  unfold mbind, M_bind, device_write, set_report_id, mret, M_ret.
  simpl. rewrite Hd. fold (probe_frame 3). fold b3.
  destruct b3; simpl; [rewrite Hd; reflexivity|].
  rewrite Hd. fold (probe_frame 0). fold b0.
  destruct b0; simpl; [rewrite Hd, <- app_assoc; reflexivity|].
  rewrite Hd, <- app_assoc. simpl. fold (probe_frame 2). fold b2.
  destruct b2; simpl; rewrite ?Hd, <- app_assoc; reflexivity.
Qed.

(** X6. Whatever the transport, and with or without an open device,
    [_detect_version] leaves a report id among 3, 0 and 2, keeps the device,
    and adds at most three frames to the wire, each a probe of eight zeros;
    a probe that returned is the last one and carries the report id kept.
    With no device nothing is written and the report id is 3. *)
Theorem detect_version_range (w : world) :
  let w' := (_detect_version w).2 in
  (report_id (self w') = 3 \/ report_id (self w') = 0 \/
   report_id (self w') = 2) /\
  device (self w') = device (self w) /\
  (exists tr,
      wire w' = wire w ++ tr /\
      (length tr <= 3)%nat /\
      Forall (fun e : frame * bool =>
                e.1 = probe_frame 3 \/ e.1 = probe_frame 0 \/
                e.1 = probe_frame 2) tr /\
      (forall f, (f, true) ∈ tr ->
                 last tr = Some (f, true) /\
                 f = probe_frame (report_id (self w'))) /\
      (device (self w) = None -> tr = [])) /\
  (device (self w) = None -> report_id (self w') = 3).
Proof.
  intros w'. unfold w'. destruct (device (self w)) as [d|] eqn:Hd.
  - rewrite (detect_version_connected d w Hd). cbv zeta.
    set (b3 := accepts d (wire w) (probe_frame 3)).
    set (b0 := accepts d _ (probe_frame 0)).
    set (b2 := accepts d _ (probe_frame 2)).
    cbn [snd self wire device report_id].
    split; [destruct b3, b0, b2; auto|].
    split; [reflexivity|].
    split; [|discriminate].
    eexists. split; [reflexivity|].
    destruct b3; [|destruct b0; [|destruct b2]];
      (split; [simpl; lia|]);
      (split; [repeat constructor; auto|]);
      (split; [|discriminate]);
      intros f Hf; rewrite !elem_of_cons, elem_of_nil in Hf;
      repeat (destruct Hf as [Hf|Hf]; try discriminate Hf);
      try contradiction;
      injection Hf as ->; split; reflexivity.
  - rewrite (detect_version_disconnected w Hd).
    cbn [snd self wire device report_id].
    split; [auto|]. split; [reflexivity|]. split; [|reflexivity].
    exists []. rewrite app_nil_r.
    split; [reflexivity|]. split; [simpl; lia|]. split; [constructor|].
    split; [|reflexivity].
    intros f Hf. apply elem_of_nil in Hf. destruct Hf.
Qed.

(** X7. On a device whose answers do not depend on earlier writes the report
    id found by [_detect_version] depends on nothing but the device: not on
    the report id before, not on the wire; detecting a second time finds the
    same id. *)
Theorem detect_version_stateless (d : hid_device) :
  stateless d ->
  (forall w1 w2,
      device (self w1) = Some d -> device (self w2) = Some d ->
      report_id (self (_detect_version w1).2) =
      report_id (self (_detect_version w2).2)) /\
  (forall w,
      device (self w) = Some d ->
      report_id (self (_detect_version (_detect_version w).2).2) =
      report_id (self (_detect_version w).2)).
Proof.
  intros Hs.
  assert (H12 : forall w1 w2,
             device (self w1) = Some d -> device (self w2) = Some d ->
             report_id (self (_detect_version w1).2) =
             report_id (self (_detect_version w2).2)).
  { intros w1 w2 H1 H2.
    rewrite (detect_version_connected d w1 H1),
            (detect_version_connected d w2 H2).
    cbn [snd self report_id].
    rewrite (Hs (wire w1) (wire w2) (probe_frame 3)).
    rewrite (Hs (wire w1 ++ _) (wire w2 ++ [(probe_frame 3, false)])
               (probe_frame 0)).
    rewrite (Hs (wire w1 ++ _)
               (wire w2 ++ [(probe_frame 3, false); (probe_frame 0, false)])
               (probe_frame 2)).
    reflexivity. }
  split; [exact H12|].
  intros w Hd. apply H12; [|exact Hd].
  rewrite (detect_version_connected d w Hd). reflexivity.
Qed.

Lemma detect_version_stateless_witness :
  report_id (self (_detect_version (connected (only_report_id 2) 3)).2) =
  report_id (self (_detect_version (connected (only_report_id 2) 0)).2).
Proof.
  apply (proj1 (detect_version_stateless (only_report_id 2)
                  (fun tr tr' f => eq_refl))
           (connected (only_report_id 2) 3) (connected (only_report_id 2) 0));
    reflexivity.
Defined.

(** ** Finding the device *)

Lemma find_device_in_none env pids :
  find_device_in env pids = None <->
  Forall (fun pid => enumerate env VENDOR_ID pid = []) pids.
Proof.
  induction pids as [|pid rest IH]; simpl.
  - split; [constructor|reflexivity].
  - destruct (enumerate env VENDOR_ID pid) as [|dev devices] eqn:E.
    + simpl. rewrite IH. split.
      * intros H. constructor; [exact E|]. exact H.
      * intros H. inversion H; assumption.
    + destruct (List.find is_mi_01 (dev :: devices));
        [|destruct (List.find is_vendor_interface (dev :: devices))];
        (split; [discriminate|]);
        intros H; inversion H as [|? ? H1 H2]; rewrite E in H1; discriminate H1.
Qed.

Lemma find_device_in_some env pids dev :
  find_device_in env pids = Some dev ->
  exists earlier pid later,
    pids = earlier ++ pid :: later /\
    Forall (fun p => enumerate env VENDOR_ID p = []) earlier /\
    let devices := enumerate env VENDOR_ID pid in
    In dev devices /\
    (existsb is_mi_01 devices = true ->
     List.find is_mi_01 devices = Some dev) /\
    (existsb is_mi_01 devices = false ->
     existsb is_vendor_interface devices = true ->
     List.find is_vendor_interface devices = Some dev) /\
    (existsb is_mi_01 devices = false ->
     existsb is_vendor_interface devices = false ->
     head devices = Some dev).
Proof.
  induction pids as [|pid rest IH]; simpl; [discriminate|].
  destruct (List.find is_mi_01 (enumerate env VENDOR_ID pid)) as [d1|] eqn:F1.
  { intros [= ->]. exists [], pid, rest. split; [reflexivity|].
    split; [constructor|]. cbv zeta.
    destruct (find_some _ _ F1) as [Hin Hp].
    assert (Hex : existsb is_mi_01 (enumerate env VENDOR_ID pid) = true)
      by (apply existsb_exists; eauto).
    split; [exact Hin|]. rewrite Hex.
    split; [intros _; exact F1|]. split; discriminate. }
  assert (Hno1 : existsb is_mi_01 (enumerate env VENDOR_ID pid) = false).
  { apply not_true_is_false. intros H. apply existsb_exists in H as (x & Hx & Hp).
    rewrite (find_none _ _ F1 x Hx) in Hp. discriminate Hp. }
  destruct (List.find is_vendor_interface (enumerate env VENDOR_ID pid))
    as [d2|] eqn:F2.
  { intros [= ->]. exists [], pid, rest. split; [reflexivity|].
    split; [constructor|]. cbv zeta.
    destruct (find_some _ _ F2) as [Hin Hp].
    assert (Hex : existsb is_vendor_interface (enumerate env VENDOR_ID pid)
                  = true) by (apply existsb_exists; eauto).
    split; [exact Hin|]. rewrite Hno1, Hex.
    split; [discriminate|]. split; [intros _ _; exact F2|discriminate]. }
  assert (Hno2 : existsb is_vendor_interface (enumerate env VENDOR_ID pid)
                 = false).
  { apply not_true_is_false. intros H. apply existsb_exists in H as (x & Hx & Hp).
    rewrite (find_none _ _ F2 x Hx) in Hp. discriminate Hp. }
  destruct (enumerate env VENDOR_ID pid) as [|d0 devices] eqn:E.
  - intros H. destruct (IH H) as (earlier & pid' & later & -> & Hall & Hrest).
    exists (pid :: earlier), pid', later. split; [reflexivity|].
    split; [constructor; assumption|exact Hrest].
  - intros [= ->]. exists [], pid, rest. split; [reflexivity|].
    split; [constructor|]. cbv zeta. rewrite E.
    split; [left; reflexivity|].
    rewrite Hno1, Hno2. split; [discriminate|]. split; [discriminate|].
    reflexivity.
Qed.

(** X8. [find_device] finds nothing exactly when no product id of
    [PRODUCT_IDS] enumerates any interface; otherwise it always returns one
    of the interfaces enumerated. *)
Theorem find_device_none (env : hid_env) :
  (find_device env = None <->
   Forall (fun pid => enumerate env VENDOR_ID pid = []) PRODUCT_IDS) /\
  (forall dev, find_device env = Some dev ->
               exists pid, In pid PRODUCT_IDS /\
                           In dev (enumerate env VENDOR_ID pid)).
Proof.
  split; [apply find_device_in_none|].
  intros dev H.
  destruct (find_device_in_some env PRODUCT_IDS dev H)
    as (earlier & pid & later & E & _ & Hin & _).
  exists pid. split; [|exact Hin].
  rewrite E. apply in_or_app. right. left. reflexivity.
Qed.

(** X9. The interface [find_device] returns belongs to the first product id
    of [PRODUCT_IDS] that enumerates anything, whatever the later ones offer.
    Among the interfaces of that product id it is the first whose path
    contains "mi_01" in any case; failing that the first with usage page
    0xff00 or interface number 0; failing that the first one. *)
Theorem find_device_priority (env : hid_env) (dev : dev_info) :
  find_device env = Some dev ->
  exists earlier pid later,
    PRODUCT_IDS = earlier ++ pid :: later /\
    Forall (fun p => enumerate env VENDOR_ID p = []) earlier /\
    let devices := enumerate env VENDOR_ID pid in
    In dev devices /\
    (existsb is_mi_01 devices = true ->
     List.find is_mi_01 devices = Some dev) /\
    (existsb is_mi_01 devices = false ->
     existsb is_vendor_interface devices = true ->
     List.find is_vendor_interface devices = Some dev) /\
    (existsb is_mi_01 devices = false ->
     existsb is_vendor_interface devices = false ->
     head devices = Some dev).
Proof. apply find_device_in_some. Qed.

Example find_device_sample :
  find_device sample_env = Some sample_vendor_interface.
Proof. vm_compute. reflexivity. Qed.

Lemma find_device_none_witness :
  exists pid, In pid PRODUCT_IDS /\
              In sample_vendor_interface (enumerate sample_env VENDOR_ID pid).
Proof.
  apply (proj2 (find_device_none sample_env) sample_vendor_interface).
  vm_compute. reflexivity.
Defined.

Lemma find_device_priority_witness :
  exists earlier pid later,
    PRODUCT_IDS = earlier ++ pid :: later /\
    Forall (fun p => enumerate sample_env VENDOR_ID p = []) earlier /\
    In sample_vendor_interface (enumerate sample_env VENDOR_ID pid).
Proof.
  destruct (find_device_priority sample_env sample_vendor_interface
              ltac:(vm_compute; reflexivity))
    as (earlier & pid & later & E & Hall & Hin & _).
  exists earlier, pid, later. auto.
Defined.

(** ** Connecting and disconnecting *)

Lemma self_eta (kb : MiniKeyboard) :
  {| device := device kb; report_id := report_id kb |} = kb.
Proof. destruct kb; reflexivity. Qed.

Lemma detect_version_shape (w : world) :
  exists rid tr,
    _detect_version w =
      (tt, {| self := {| device := device (self w); report_id := rid |};
              wire := wire w ++ tr |}) /\
    (rid = 3 \/ rid = 0 \/ rid = 2) /\
    (length tr <= 3)%nat /\
    (is_connected (self w) = true -> (1 <= length tr)%nat) /\
    Forall (fun e : frame * bool =>
              e.1 = probe_frame 3 \/ e.1 = probe_frame 0 \/
              e.1 = probe_frame 2) tr.
Proof.
  unfold is_connected. destruct (device (self w)) as [d|] eqn:Hd.
  - rewrite (detect_version_connected d w Hd). cbv zeta.
    set (b3 := accepts d (wire w) (probe_frame 3)).
    set (b0 := accepts d _ (probe_frame 0)).
    set (b2 := accepts d _ (probe_frame 2)).
    eexists _, _. split; [reflexivity|].
    destruct b3; [|destruct b0; [|destruct b2]];
      (split; [auto|]); (split; [simpl; lia|]); (split; [simpl; lia|]);
      repeat (apply List.Forall_cons; [simpl; auto|]); apply List.Forall_nil.
  - rewrite (detect_version_disconnected w Hd).
    exists 3, []. rewrite app_nil_r.
    split; [reflexivity|]. split; [auto|]. split; [simpl; lia|].
    split; [discriminate|constructor].
Qed.

Lemma connect_cases (env : hid_env) (w : world) :
  device (self w) = None ->
  (connect env w = (false, w) /\
   ~ exists dev p d, find_device env = Some dev /\ path dev = Some p /\
                     open_path env p = Some d) \/
  (exists dev p d rid tr,
      find_device env = Some dev /\ path dev = Some p /\
      open_path env p = Some d /\
      connect env w =
        (true, {| self := {| device := Some d; report_id := rid |};
                  wire := wire w ++ tr |}) /\
      (rid = 3 \/ rid = 0 \/ rid = 2) /\ (1 <= length tr <= 3)%nat /\
      Forall (fun e : frame * bool =>
                e.1 = probe_frame 3 \/ e.1 = probe_frame 0 \/
                e.1 = probe_frame 2) tr).
Proof.
  intros Hd.
  assert (Hw : {| self := {| device := None; report_id := report_id (self w) |};
                  wire := wire w |} = w).
  { rewrite <- Hd, self_eta. destruct w; reflexivity. }
  unfold connect.
  destruct (find_device env) as [dev|] eqn:Hfind.
  2:{ left. split; [reflexivity|]. intros (? & ? & ? & [=] & _). }
  destruct (path dev) as [p|] eqn:Hp; simpl.
  2:{ left. unfold set_device, mbind, M_bind, mret, M_ret; simpl.
      rewrite Hw. split; [reflexivity|].
      intros (? & ? & ? & [= <-] & E & _). rewrite Hp in E. discriminate E. }
  destruct (open_path env p) as [d|] eqn:Ho; simpl.
  2:{ left. unfold set_device, mbind, M_bind, mret, M_ret; simpl.
      rewrite Hw. split; [reflexivity|].
      intros (? & ? & ? & [= <-] & E & E').
      rewrite Hp in E. injection E as <-. rewrite Ho in E'. discriminate E'. }
  right. rewrite !bind_run. unfold set_device. cbn [fst snd].
  set (w1 := {| self := {| device := Some d; report_id := report_id (self w) |};
                wire := wire w |}).
  destruct (detect_version_shape w1) as (rid & tr & E & Hrid & Hlen & Hone & HF).
  exists dev, p, d, rid, tr. rewrite E.
  repeat split; try reflexivity; try assumption.
  apply Hone. reflexivity.
Qed.

(** X10. Called on an object without a device, [connect] returns [True]
    exactly when [find_device] returns an interface that has a path which
    opens, and exactly then the object is connected afterwards. A successful
    connect has written between one and three detection probes and left a
    report id among 3, 0 and 2; a failed one has changed nothing. *)
Theorem connect_result (env : hid_env) (w : world) :
  device (self w) = None ->
  let r := connect env w in
  r.1 = is_connected (self r.2) /\
  (r.1 = true <->
   exists dev p d,
     find_device env = Some dev /\ path dev = Some p /\
     open_path env p = Some d /\ device (self r.2) = Some d) /\
  (r.1 = false -> r.2 = w) /\
  (r.1 = true ->
   (report_id (self r.2) = 3 \/ report_id (self r.2) = 0 \/
    report_id (self r.2) = 2) /\
   exists tr, wire r.2 = wire w ++ tr /\ (1 <= length tr <= 3)%nat).
Proof.
  intros Hd r. unfold r.
  destruct (connect_cases env w Hd)
    as [[-> Hno]|(dev & p & d & rid & tr & Hf & Hp & Ho & -> & Hrid & Hlen & _)];
    cbn [fst snd self wire device report_id is_connected].
  - unfold is_connected. rewrite Hd.
    split; [reflexivity|]. split.
    + split; [discriminate|]. intros (dev & p & d & Hf & Hp & Ho & _).
      exfalso. apply Hno. exists dev, p, d. repeat split; assumption.
    + split; [reflexivity|discriminate].
  - split; [reflexivity|]. split.
    + split; [|reflexivity]. intros _. exists dev, p, d.
      repeat split; try assumption; reflexivity.
    + split; [discriminate|]. intros _. split; [exact Hrid|].
      exists tr. split; [reflexivity|exact Hlen].
Qed.

Lemma connect_result_witness :
  let r := connect sample_env {| self := MiniKeyboard_init; wire := [] |} in
  r.1 = is_connected (self r.2).
Proof.
  exact (proj1 (connect_result sample_env
                  {| self := MiniKeyboard_init; wire := [] |} eq_refl)).
Defined.

Example connect_sample :
  connect sample_env {| self := MiniKeyboard_init; wire := [] |} =
  (true,
   {| self := {| device := Some (only_report_id 0); report_id := 0 |};
      wire := [(probe_frame 3, false); (probe_frame 0, true)] |}).
Proof. vm_compute. reflexivity. Qed.

Lemma disconnect_run (w : world) :
  disconnect w =
  (tt, {| self := {| device := None; report_id := report_id (self w) |};
          wire := wire w |}).
Proof.
  unfold disconnect. rewrite bind_run. unfold get_self; simpl.
  destruct (device (self w)) eqn:Hd; [reflexivity|].
  unfold mret, M_ret. f_equal. rewrite <- Hd, self_eta. destruct w; reflexivity.
Qed.

Lemma session_steps_disconnected (w w' : world) :
  rtc session_step w w' -> device (self w) = None -> w' = w.
Proof.
  induction 1 as [|w1 w2 w3 Hstep _ IH]; intros Hd; [reflexivity|].
  apply session_step_operation in Hstep as [op ->].
  rewrite (run_operation_disconnected op w1 Hd) in IH. apply IH, Hd.
Qed.

(** X11. [disconnect] drops the device and touches nothing else; afterwards
    every public command fails, and no sequence of public commands changes
    the object or writes a frame. Disconnecting again changes nothing. *)
Theorem disconnect_closes (w : world) :
  let w' := (disconnect w).2 in
  device (self w') = None /\
  report_id (self w') = report_id (self w) /\
  wire w' = wire w /\
  (forall op, run_operation op w' = (false, w')) /\
  (forall w'', rtc session_step w' w'' -> w'' = w') /\
  (disconnect w').2 = w'.
Proof.
  intros w'. unfold w'. rewrite disconnect_run. cbn [snd].
  split; [reflexivity|]. split; [reflexivity|]. split; [reflexivity|].
  split; [|split].
  - intros op. apply run_operation_disconnected. reflexivity.
  - intros w'' Hsteps. apply (session_steps_disconnected _ _ Hsteps). reflexivity.
  - rewrite disconnect_run. reflexivity.
Qed.

(** ** The symbol tables *)

Lemma list_to_map_range (l : list (string * Z)) (lo hi : Z) (t : string)
    (v : Z) :
  forallb (fun p : string * Z => (lo <=? p.2) && (p.2 <=? hi)) l = true ->
  (list_to_map l : gmap string Z) !! t = Some v ->
  lo <= v <= hi.
Proof.
  intros Hall Ht. apply elem_of_list_to_map_2 in Ht.
  apply list_elem_of_In in Ht.
  pose proof (proj1 (forallb_forall _ l) Hall (t, v) Ht) as H.
  simpl in H. apply andb_true_iff in H as [H1 H2]. lia.
Qed.

Lemma physical_keys_range name slot :
  PHYSICAL_KEYS !! name = Some slot -> 1 <= slot <= 18.
Proof. apply list_to_map_range. vm_compute. reflexivity. Qed.

Lemma keycodes_range name code :
  KEYCODES !! name = Some code -> 4 <= code <= 101.
Proof. apply list_to_map_range. vm_compute. reflexivity. Qed.

Lemma media_keycodes_range name code :
  MEDIA_KEYCODES !! name = Some code -> 181 <= code <= 234.
Proof. apply list_to_map_range. vm_compute. reflexivity. Qed.

(** X12. Every code of the three tables fits its place on the wire: the
    slots of [PHYSICAL_KEYS] lie in 1..18, so never the LED pseudo-slot
    0xB0; the codes of [KEYCODES] lie in 4..101, so never the zero that
    stands for an unknown key; the codes of [MEDIA_KEYCODES] lie in
    181..234. *)
Theorem table_ranges (name : string) (code : Z) :
  (PHYSICAL_KEYS !! name = Some code -> 1 <= code <= 18) /\
  (KEYCODES !! name = Some code -> 4 <= code <= 101) /\
  (MEDIA_KEYCODES !! name = Some code -> 181 <= code <= 234).
Proof.
  split; [apply physical_keys_range|].
  split; [apply keycodes_range|apply media_keycodes_range].
Qed.

Lemma table_ranges_witness : 1 <= 15 <= 18 /\ 4 <= 72 <= 101 /\ 181 <= 205 <= 234.
Proof.
  split; [|split].
  - apply (proj1 (table_ranges "knob1_cw" 15)). vm_compute. reflexivity.
  - apply (proj1 (proj2 (table_ranges "pause" 72))). vm_compute. reflexivity.
  - apply (proj2 (proj2 (table_ranges "pause" 205))). vm_compute. reflexivity.
Defined.

(** ** More on the parser *)

Lemma parse_part_keycode (m k : Z) (part : string) :
  exists m' k',
    parse_part (m, k) part = Some (m', k') /\
    (k' = k \/ k' = 0 \/ KEYCODES !! part = Some k').
Proof.
  rewrite parse_part_cases.
  destruct (is_modifier_name part); [eauto|].
  destruct (KEYCODES !! part) as [k'|]; [eauto 6|].
  destruct (single_letter part); eauto 6.
Qed.

Lemma parse_parts_keycode (parts : list string) (m k : Z) :
  exists m' k',
    parse_parts parts (m, k) = Some (m', k') /\
    (k' = k \/ k' = 0 \/ exists t, In t parts /\ KEYCODES !! t = Some k').
Proof.
  revert m k. induction parts as [|part rest IH]; intros m k;
    cbn [parse_parts].
  - eauto.
  - destruct (parse_part_keycode m k part) as (m1 & k1 & E & H1). rewrite E.
    cbn [mbind option_bind].
    destruct (IH m1 k1) as (m2 & k2 & E2 & H2).
    exists m2, k2. split; [exact E2|].
    destruct H2 as [->|[->|(t & Ht & Hk)]].
    + destruct H1 as [->|[->|Hk]]; auto.
      right. right. exists part. split; [left; reflexivity|exact Hk].
    + auto.
    + right. right. exists t. split; [right; exact Ht|exact Hk].
Qed.

(** X13. The keycode returned by [parse_key_combo] is 0 or the [KEYCODES]
    code of one of the parts of the input, hence 0 or in 4..101; it is 0
    whenever no part is a key of [KEYCODES], modifier names included. *)
Theorem parsed_keycode_from_table (combo_str : string) :
  exists modifiers keycode,
    parse_key_combo combo_str = Some (modifiers, keycode) /\
    (keycode = 0 \/
     exists t, In t (tokens combo_str) /\ KEYCODES !! t = Some keycode) /\
    (keycode = 0 \/ 4 <= keycode <= 101) /\
    (Forall (fun t => KEYCODES !! t = None) (tokens combo_str) ->
     keycode = 0).
Proof.
  destruct (parse_parts_keycode (tokens combo_str) 0 0)
    as (m & k & E & H).
  exists m, k. split; [exact E|].
  assert (H' : k = 0 \/
               exists t, In t (tokens combo_str) /\ KEYCODES !! t = Some k)
    by (destruct H as [->|[->|H]]; auto).
  split; [exact H'|]. split.
  - destruct H' as [->|(t & _ & Hk)]; [auto|].
    right. apply (keycodes_range t k Hk).
  - intros Hall. destruct H' as [->|(t & Ht & Hk)]; [reflexivity|].
    rewrite (proj1 (List.Forall_forall _ _) Hall t Ht) in Hk. discriminate Hk.
Qed.

Lemma parsed_keycode_from_table_witness :
  exists m k, parse_key_combo "ctrl+shift" = Some (m, k) /\ k = 0.
Proof.
  destruct (parsed_keycode_from_table "ctrl+shift") as (m & k & E & _ & _ & H).
  exists m, k. split; [exact E|]. apply H.
  replace (tokens "ctrl+shift") with ["ctrl"; "shift"]
    by (vm_compute; reflexivity).
  repeat (apply List.Forall_cons; [vm_compute; reflexivity|]).
  apply List.Forall_nil.
Defined.

Lemma testbit_fold_lor (flags : list Z) (m : Z) (i : Z) :
  Z.testbit (fold_left Z.lor flags m) i =
  Z.testbit m i || existsb (fun f => Z.testbit f i) flags.
Proof.
  revert m. induction flags as [|f flags IH]; intros m; simpl.
  - rewrite orb_false_r. reflexivity.
  - rewrite IH, Z.lor_spec, orb_assoc. reflexivity.
Qed.

Lemma existsb_same_elements {A} (p : A -> bool) (l1 l2 : list A) :
  (forall x, In x l1 <-> In x l2) -> existsb p l1 = existsb p l2.
Proof.
  intros H. apply eq_true_iff_eq. rewrite !existsb_exists.
  split; intros (x & Hx & Hp); exists x; split; try assumption; apply H, Hx.
Qed.

(** X14. The modifiers returned by [parse_key_combo] depend only on which
    parts occur in the input, not on their order or number: two inputs with
    the same set of parts give the same modifiers. *)
Theorem parsed_modifiers_order_free (s1 s2 : string) :
  (forall t, In t (tokens s1) <-> In t (tokens s2)) ->
  exists m k1 k2,
    parse_key_combo s1 = Some (m, k1) /\ parse_key_combo s2 = Some (m, k2).
Proof.
  intros Hsame.
  destruct (parse_key_combo_modifiers s1) as [k1 E1].
  destruct (parse_key_combo_modifiers s2) as [k2 E2].
  exists (fold_left Z.lor (map modifier_flag (tokens s1)) 0), k1, k2.
  split; [exact E1|]. rewrite E2. do 2 f_equal.
  apply Z.bits_inj. intros i. rewrite !testbit_fold_lor. f_equal.
  apply existsb_same_elements. intros f. rewrite !in_map_iff.
  split; intros (t & <- & Ht); exists t; split; try reflexivity; apply Hsame, Ht.
Qed.

Lemma parsed_modifiers_order_free_witness :
  exists m k1 k2,
    parse_key_combo "ctrl+shift+a" = Some (m, k1) /\
    parse_key_combo "a+shift+ctrl+shift" = Some (m, k2).
Proof.
  apply parsed_modifiers_order_free.
  replace (tokens "ctrl+shift+a") with ["ctrl"; "shift"; "a"]
    by (vm_compute; reflexivity).
  replace (tokens "a+shift+ctrl+shift") with ["a"; "shift"; "ctrl"; "shift"]
    by (vm_compute; reflexivity).
  intros t. simpl. tauto.
Defined.

(** * The command line *)

Lemma main_set_cases key mapping layer w :
  (PHYSICAL_KEYS !! lower key = None /\
   main_set key mapping layer w = (UnknownPhysicalKey, w)) \/
  (exists slot,
      PHYSICAL_KEYS !! lower key = Some slot /\
      ((exists code,
           MEDIA_KEYCODES !! lower mapping = Some code /\
           main_set key mapping layer w =
           (if (set_media_key slot code layer w).1
            then SetMediaKey else FailedToSetKeyMapping,
            (set_media_key slot code layer w).2)) \/
       (MEDIA_KEYCODES !! lower mapping = None /\
        exists m k,
          parse_key_combo (lower mapping) = Some (m, k) /\
          ((k = 0 /\ main_set key mapping layer w = (UnknownKey, w)) \/
           (k <> 0 /\
            main_set key mapping layer w =
            (if (set_basic_key slot k m layer w).1
             then SetBasicKey else FailedToSetKeyMapping,
             (set_basic_key slot k m layer w).2)))))).
Proof.
  unfold main_set, dict_contains.
  destruct (PHYSICAL_KEYS !! lower key) as [slot|]; cbn [negb];
    [right; exists slot; split; [reflexivity|] | left; split; reflexivity].
  destruct (MEDIA_KEYCODES !! lower mapping) as [code|].
  - left. exists code. split; [reflexivity|]. rewrite bind_run. reflexivity.
  - right. split; [reflexivity|].
    destruct (parse_parts_total (tokens (lower mapping)) (0, 0)) as [[m k] E].
    change (parse_key_combo (lower mapping) = Some (m, k)) in E.
    exists m, k. split; [exact E|]. rewrite E.
    destruct (Z.eqb_spec k 0) as [->|Hk].
    + left. split; reflexivity.
    + right. split; [exact Hk|]. rewrite bind_run. reflexivity.
Qed.

(** X15. In the 'set' command a mapping that names a media key, in any case,
    goes to [set_media_key] with the code of the media table and never
    through the combo parser: the command does to the world what
    [set_media_key] does. So "pause" is sent as media code 205, not as the
    Pause key 72 of [KEYCODES]. *)
Theorem main_set_media_first (key mapping : string) (layer slot code : Z)
    (w : world) :
  PHYSICAL_KEYS !! lower key = Some slot ->
  MEDIA_KEYCODES !! lower mapping = Some code ->
  main_set key mapping layer w =
  (if (set_media_key slot code layer w).1
   then SetMediaKey else FailedToSetKeyMapping,
   (set_media_key slot code layer w).2).
Proof.
  intros Hslot Hcode.
  destruct (main_set_cases key mapping layer w)
    as [[Hn _]|(slot' & Hs & [(code' & Hc & E)|[Hn _]])].
  - rewrite Hslot in Hn. discriminate Hn.
  - rewrite Hslot in Hs. injection Hs as <-.
    rewrite Hcode in Hc. injection Hc as <-. exact E.
  - rewrite Hcode in Hn. discriminate Hn.
Qed.

Lemma main_set_media_first_witness :
  main_set "KEY3" "Pause" 1 (connected reliable 0) =
  (SetMediaKey,
   {| self := {| device := Some reliable; report_id := 0 |};
      wire := [ ([0; 3; 2; 205; 0; 0; 0; 0; 0], true);
                ([0; 0xAA; 0xAA; 0; 0; 0; 0; 0; 0], true) ] |}).
Proof.
  exact (main_set_media_first "KEY3" "Pause" 1 3 205 (connected reliable 0)
           ltac:(vm_compute; reflexivity) ltac:(vm_compute; reflexivity)).
Defined.

(** X16. The 'set' command never raises a [KeyError]. It reports an unknown
    physical key exactly when the lower-cased key name is not in
    [PHYSICAL_KEYS], and an unknown key exactly when the key name is known,
    the lower-cased mapping is no media name and the combo parser returns
    keycode 0; in both cases it writes nothing and changes nothing. *)
Theorem main_set_errors (key mapping : string) (layer : Z) (w : world) :
  let r := main_set key mapping layer w in
  r.1 <> UncaughtKeyError /\
  (r.1 = UnknownPhysicalKey <-> PHYSICAL_KEYS !! lower key = None) /\
  (r.1 = UnknownKey <->
   is_Some (PHYSICAL_KEYS !! lower key) /\
   MEDIA_KEYCODES !! lower mapping = None /\
   exists m, parse_key_combo (lower mapping) = Some (m, 0)) /\
  (r.1 = UnknownPhysicalKey \/ r.1 = UnknownKey -> r.2 = w).
Proof.
  intros r. unfold r.
  destruct (main_set_cases key mapping layer w)
    as [[Hn E]|(slot & Hs & [(code & Hc & E)|(Hn & m & k & Hp & [[-> E]|[Hk E]])])];
    rewrite E; cbn [fst snd]; rewrite ?Hn, ?Hs, ?Hc, ?Hp.
  - split; [discriminate|]. split; [tauto|]. split; [|reflexivity].
    split; [discriminate|]. intros ([? [=]] & _).
  - split; [destruct (set_media_key _ _ _ _).1; discriminate|].
    split; [split; [destruct (set_media_key _ _ _ _).1|]; discriminate|].
    split; [|intros [H|H]; destruct (set_media_key _ _ _ _).1; discriminate H].
    split; [destruct (set_media_key _ _ _ _).1; discriminate|].
    intros (_ & [=] & _).
  - split; [discriminate|]. split; [split; discriminate|].
    split; [|reflexivity].
    split; [|reflexivity]. intros _. split; [eauto|]. split; [reflexivity|eauto].
  - split; [destruct (set_basic_key _ _ _ _ _).1; discriminate|].
    split; [split; [destruct (set_basic_key _ _ _ _ _).1|]; discriminate|].
    split; [|intros [H|H]; destruct (set_basic_key _ _ _ _ _).1; discriminate H].
    split; [destruct (set_basic_key _ _ _ _ _).1; discriminate|].
    intros (_ & _ & m' & [= _ Hk0]). contradiction.
Qed.

(** ** Bytes on the wire *)

Lemma type_byte_range (layer key_type : Z) :
  0 <= layer <= 15 -> 0 <= key_type < 16 ->
  0 <= Z.lor (Z.shiftl layer 4) key_type <= 255.
Proof.
  intros Hl Hk. set (x := Z.lor (Z.shiftl layer 4) key_type).
  assert (H : Z.land x 255 = x).
  { unfold x. rewrite Z.land_lor_distr_l.
    change 255 with (Z.ones 8). rewrite !Z.land_ones by lia.
    rewrite Z.shiftl_mul_pow2 by lia.
    rewrite !Z.mod_small by lia. reflexivity. }
  change 255 with (Z.ones 8) in H. rewrite Z.land_ones in H by lia.
  pose proof (Z.mod_pos_bound x (2 ^ 8) ltac:(lia)). lia.
Qed.

Lemma operation_byte_frames_aux (rid : Z) (op : operation) (b1 b2 b3 : bool) :
  0 <= rid <= 255 -> operation_in_bytes op ->
  Forall (fun e : frame * bool => byte_frame e.1)
    (map (fun f => (f, b1)) (operation_switch rid op)
     ++ (operation_packet rid op, b2)
        :: (if b2 then [(operation_flash rid op, b3)] else [])).
Proof.
  intros Hrid Hop. unfold byte_frame.
  destruct op as [slot keycode modifiers layer|slot code layer|mode];
    unfold operation_switch, operation_packet, operation_flash, flash_frame,
      layer_switch_frame; cbn [operation_in_bytes] in Hop.
  - pose proof (type_byte_range layer 1 ltac:(lia) ltac:(lia)).
    destruct (rid =? 0), b2; cbn [map app fst];
      repeat (apply List.Forall_cons;
              [cbn [fst]; repeat (apply List.Forall_cons; [lia|]);
               apply List.Forall_nil|]);
      apply List.Forall_nil.
  - pose proof (type_byte_range layer 2 ltac:(lia) ltac:(lia)).
    destruct (rid =? 0), b2; cbn [map app fst];
      repeat (apply List.Forall_cons;
              [cbn [fst]; repeat (apply List.Forall_cons; [lia|]);
               apply List.Forall_nil|]);
      apply List.Forall_nil.
  - destruct b2; cbn [map app fst];
      repeat (apply List.Forall_cons;
              [cbn [fst]; repeat (apply List.Forall_cons; [lia|]);
               apply List.Forall_nil|]);
      apply List.Forall_nil.
Qed.

(** X17. When the report id, the slot, the codes and the modifiers of a
    public command are bytes and its layer is in 0..15, every entry of every
    frame the command hands to the device is a byte. *)
Theorem operation_byte_frames (op : operation) (w : world) :
  0 <= report_id (self w) <= 255 -> operation_in_bytes op ->
  Forall (fun e : frame * bool => byte_frame e.1)
         (emitted (run_operation op) w).
Proof.
  intros Hrid Hop. destruct (device (self w)) as [d|] eqn:Hd.
  - destruct (run_operation_connected d op w Hd) as (b1 & b2 & b3 & E).
    cbv zeta in E. erewrite emitted_unfold by (rewrite E; reflexivity).
    apply operation_byte_frames_aux; assumption.
  - erewrite emitted_unfold
      by (rewrite (run_operation_disconnected op w Hd); simpl;
          symmetry; apply app_nil_r).
    constructor.
Qed.

Lemma operation_byte_frames_witness :
  Forall (fun e : frame * bool => byte_frame e.1)
         (emitted (set_basic_key 12 101 15 15) (connected reliable 3)).
Proof.
  apply (operation_byte_frames (OpBasicKey 12 101 15 15) (connected reliable 3)).
  - simpl. lia.
  - simpl. lia.
Defined.

(** ** A whole run of the command line *)

Lemma parse_ranges (s : string) (m k : Z) :
  parse_key_combo s = Some (m, k) ->
  0 <= m <= 15 /\ (k = 0 \/ 4 <= k <= 101).
Proof.
  intros E. split.
  - destruct (parse_key_combo_modifiers s) as [k' E']. rewrite E in E'.
    injection E' as -> _. apply nibble_range, fold_lor_nibble; [reflexivity|].
    apply List.Forall_map, List.Forall_forall. intros p _.
    apply modifier_flag_nibble.
  - destruct (parse_parts_keycode (tokens s) 0 0) as (m' & k' & E' & H).
    change (parse_key_combo s = Some (m', k')) in E'. rewrite E in E'.
    injection E' as <- <-.
    destruct H as [->|[->|(t & _ & Ht)]]; auto.
    right. apply (keycodes_range t k Ht).
Qed.

(** The command of [main] on a connected object: an error that leaves the
    world alone, or one public command. *)
Lemma main_command_cases (a : args) (w : world) :
  let command :=
    match a with
    | ArgsSet key mapping layer => main_set key mapping layer
    | ArgsLed mode => main_led mode
    end in
  (command w = (UnknownPhysicalKey, w) \/ command w = (UnknownKey, w)) \/
  (exists op,
      command w = ((command w).1, (run_operation op w).2) /\
      is_success (command w).1 = (run_operation op w).1 /\
      (command w).1 <> UncaughtKeyError /\
      (command w).1 <> CouldNotConnect /\
      (command w).1 <> UnknownPhysicalKey /\
      (command w).1 <> UnknownKey /\
      (args_in_bytes a -> operation_in_bytes op)).
Proof.
  destruct a as [key mapping layer|mode]; cbv zeta.
  - destruct (main_set_cases key mapping layer w)
      as [[_ E]|(slot & Hs & [(code & Hc & E)|(_ & m & k & Hp & [[-> E]|[Hk E]])])].
    + left. left. exact E.
    + right. exists (OpMediaKey slot code layer). rewrite E. cbn [fst snd run_operation].
      pose proof (physical_keys_range _ _ Hs).
      pose proof (media_keycodes_range _ _ Hc).
      destruct (set_media_key slot code layer w).1;
        (split; [reflexivity|]); (split; [reflexivity|]);
        (split; [discriminate|]); (split; [discriminate|]);
        (split; [discriminate|]); (split; [discriminate|]);
        simpl; lia.
    + left. right. exact E.
    + right. exists (OpBasicKey slot k m layer). rewrite E.
      cbn [fst snd run_operation].
      pose proof (physical_keys_range _ _ Hs).
      destruct (parse_ranges _ _ _ Hp) as [Hm Hk'].
      destruct (set_basic_key slot k m layer w).1;
        (split; [reflexivity|]); (split; [reflexivity|]);
        (split; [discriminate|]); (split; [discriminate|]);
        (split; [discriminate|]); (split; [discriminate|]);
        simpl; lia.
  - right. exists (OpLedMode mode). unfold main_led. rewrite bind_run.
    cbn [fst snd run_operation].
    destruct (set_led_mode mode w).1;
      (split; [reflexivity|]); (split; [reflexivity|]);
      (split; [discriminate|]); (split; [discriminate|]);
      (split; [discriminate|]); (split; [discriminate|]);
      simpl; lia.
Qed.

Lemma main_cases (env : hid_env) (a : args) (w : world) :
  main env a w =
    (CouldNotConnect, {| self := MiniKeyboard_init; wire := wire w |}) \/
  (exists rid tr msg tr2,
      main env a w =
        (msg, {| self := {| device := None; report_id := rid |};
                 wire := wire w ++ tr ++ tr2 |}) /\
      (rid = 3 \/ rid = 0 \/ rid = 2) /\
      (1 <= length tr <= 3)%nat /\
      Forall (fun e : frame * bool =>
                e.1 = probe_frame 3 \/ e.1 = probe_frame 0 \/
                e.1 = probe_frame 2) tr /\
      msg <> UncaughtKeyError /\ msg <> CouldNotConnect /\
      ((tr2 = [] /\ (msg = UnknownPhysicalKey \/ msg = UnknownKey)) \/
       (exists op (b1 b2 b3 : bool),
           tr2 = map (fun f => (f, b1)) (operation_switch rid op)
                 ++ (operation_packet rid op, b2)
                    :: (if b2 then [(operation_flash rid op, b3)] else []) /\
           is_success msg = b2 && b3 /\
           msg <> UnknownPhysicalKey /\ msg <> UnknownKey /\
           (args_in_bytes a -> operation_in_bytes op)))).
Proof.
  unfold main. rewrite !bind_run. unfold new_keyboard. cbn [fst snd].
  set (w0 := {| self := MiniKeyboard_init; wire := wire w |}).
  destruct (connect_cases env w0 eq_refl)
    as [[E _]|(dev & p & d & rid & tr & _ & _ & _ & E & Hrid & Hlen & Hprobes)];
    rewrite E; cbn [fst snd negb]; [left; reflexivity|right].
  set (w1 := {| self := {| device := Some d; report_id := rid |};
                wire := wire w0 ++ tr |}).
  rewrite !bind_run. rewrite disconnect_run. cbn [fst snd].
  exists rid, tr.
  destruct (main_command_cases a w1)
    as [[Ec|Ec]|(op & Ec & Hs & Hn1 & Hn2 & Hn3 & Hn4 & Hb)];
    cbv zeta in Ec; rewrite Ec; cbn [fst snd self wire report_id].
  - exists UnknownPhysicalKey, []. rewrite app_nil_r.
    repeat split; try assumption; try discriminate; try lia. auto.
  - exists UnknownKey, []. rewrite app_nil_r.
    repeat split; try assumption; try discriminate; try lia. auto.
  - cbv zeta in Hs, Hn1, Hn2, Hn3, Hn4.
    set (msg := (match a with
                 | ArgsSet key mapping layer => main_set key mapping layer
                 | ArgsLed mode => main_led mode
                 end w1).1) in *.
    destruct (run_operation_connected d op w1 eq_refl) as (b1 & b2 & b3 & Eo).
    cbv zeta in Eo. rewrite Eo in Hs |- *. cbn [fst snd self wire report_id] in *.
    eexists msg, _.
    split; [unfold w1, w0; cbn [wire self report_id];
            rewrite <- app_assoc; reflexivity|].
    repeat split; try assumption; try lia.
    right. exists op, b1, b2, b3. auto.
Qed.

(** X18. A run of [main] for 'set' or 'led' always ends without a device and
    never lets a [KeyError] out. It writes at most six frames, all nine
    entries long: none when it cannot connect, only detection probes when it
    rejects the key name or the mapping. It reports success only when the
    last frame written is a flash commit whose write returned. *)
Theorem main_session (env : hid_env) (a : args) (w : world) :
  let r := main env a w in
  device (self r.2) = None /\
  r.1 <> UncaughtKeyError /\
  exists tr,
    wire r.2 = wire w ++ tr /\
    (length tr <= 6)%nat /\
    frames9 tr /\
    (r.1 = CouldNotConnect -> tr = []) /\
    (r.1 = UnknownPhysicalKey \/ r.1 = UnknownKey ->
     Forall (fun e : frame * bool =>
               e.1 = probe_frame 3 \/ e.1 = probe_frame 0 \/
               e.1 = probe_frame 2) tr) /\
    (is_success r.1 = true ->
     exists rid is_led, last tr = Some (flash_frame rid is_led, true)).
Proof.
  intros r. unfold r.
  destruct (main_cases env a w)
    as [E|(rid & tr & msg & tr2 & E & Hrid & Hlen & Hprobes & Hn1 & Hn2 & Hbody)];
    rewrite E; cbn [fst snd self wire device].
  { split; [reflexivity|]. split; [discriminate|].
    exists []. rewrite app_nil_r.
    split; [reflexivity|]. split; [simpl; lia|]. split; [constructor|].
    split; [reflexivity|]. split; [constructor|]. discriminate. }
  split; [reflexivity|]. split; [exact Hn1|].
  exists (tr ++ tr2). split; [reflexivity|].
  assert (H9 : frames9 tr).
  { unfold frames9. eapply Forall_impl; [exact Hprobes|].
    intros [f ok] [H|[H|H]]; simpl in H; subst f; reflexivity. }
  destruct Hbody as [[-> Hmsg]|(op & b1 & b2 & b3 & -> & Hs & Hn3 & Hn4 & _)].
  - rewrite app_nil_r. split; [lia|]. split; [exact H9|].
    split; [intros ->; contradiction|]. split; [intros _; exact Hprobes|].
    destruct Hmsg as [->| ->]; discriminate.
  - destruct (operation_frames rid op b1 b2 b3) as [HF HL].
    split; [rewrite length_app; lia|]. split.
    { apply Forall_app. split; [exact H9|].
      eapply Forall_impl; [exact HF|]. intros e [He _]. exact He. }
    split; [intros ->; contradiction|]. split.
    { intros [->| ->]; contradiction. }
    intros Hok. rewrite Hok in Hs. symmetry in Hs.
    apply andb_true_iff in Hs as [-> ->].
    exists rid, (match op with OpLedMode _ => true | _ => false end).
    replace (operation_flash rid op)
      with (flash_frame rid match op with OpLedMode _ => true | _ => false end)
      by (destruct op; reflexivity).
    rewrite !app_assoc. apply last_two.
Qed.

(** X19. A run of [main] for 'set' with a layer in 0..15, or for 'led' with
    a mode in 0..255, hands the device nothing but bytes: every entry of
    every frame it writes, detection probes included, lies in 0..255,
    whatever the host, the key name and the mapping. *)
Theorem main_byte_frames (env : hid_env) (a : args) (w : world) :
  args_in_bytes a ->
  Forall (fun e : frame * bool => byte_frame e.1) (emitted (main env a) w).
Proof.
  intros Ha.
  destruct (main_cases env a w)
    as [E|(rid & tr & msg & tr2 & E & Hrid & _ & Hprobes & _ & _ & Hbody)].
  { erewrite emitted_unfold
      by (rewrite E; simpl; symmetry; apply app_nil_r).
    constructor. }
  erewrite emitted_unfold by (rewrite E; reflexivity).
  apply Forall_app. split.
  - eapply Forall_impl; [exact Hprobes|].
    intros [f ok] [H|[H|H]]; simpl in H; subst f; unfold byte_frame, probe_frame;
      simpl; repeat (apply List.Forall_cons; [lia|]); apply List.Forall_nil.
  - destruct Hbody as [[-> _]|(op & b1 & b2 & b3 & -> & _ & _ & _ & Hop)];
      [constructor|].
    apply operation_byte_frames_aux; [lia|apply Hop, Ha].
Qed.

Lemma main_byte_frames_witness :
  Forall (fun e : frame * bool => byte_frame e.1)
         (emitted (main sample_env (ArgsSet "knob1_cw" "ctrl+shift+f5" 15))
                  {| self := MiniKeyboard_init; wire := [] |}).
Proof.
  apply main_byte_frames. simpl. lia.
Defined.

Example main_sample :
  main sample_env (ArgsSet "knob1_cw" "VolUp" 2)
       {| self := MiniKeyboard_init; wire := [] |} =
  (SetMediaKey,
   {| self := {| device := None; report_id := 0 |};
      wire := [ (probe_frame 3, false); (probe_frame 0, true);
                ([0; 15; 2; 233; 0; 0; 0; 0; 0], true);
                ([0; 0xAA; 0xAA; 0; 0; 0; 0; 0; 0], true) ] |}).
Proof. vm_compute. reflexivity. Qed.

(** * Further checks *)

(** X20. On an open device [_send_layer_switch] writes one frame, the layer
    switch whose layer byte is the layer raised to 1 when below and left as
    it is otherwise (there is no upper bound), and returns the outcome of
    that write; with no device it returns [False] and writes nothing. *)
Theorem layer_switch_clamped (layer : Z) (w : world) :
  (forall d, device (self w) = Some d ->
     exists ok : bool,
       _send_layer_switch layer w =
       (ok, {| self := self w;
               wire := wire w ++
                       [([report_id (self w); 0xA1; Z.max 1 layer;
                          0; 0; 0; 0; 0; 0], ok)] |}) /\
       1 <= Z.max 1 layer /\
       (1 <= layer -> Z.max 1 layer = layer)) /\
  (device (self w) = None -> _send_layer_switch layer w = (false, w)).
Proof.
  split.
  - intros d Hd. eexists. split.
    + rewrite (send_layer_switch_connected d) by exact Hd. reflexivity.
    + lia.
  - intros Hd. unfold _send_layer_switch.
    apply write_report_disconnected, Hd.
Qed.

Lemma layer_switch_clamped_witness :
  exists ok : bool,
    _send_layer_switch (-5) (connected reliable 2) =
    (ok, {| self := self (connected reliable 2);
            wire := [] ++ [([2; 0xA1; 1; 0; 0; 0; 0; 0; 0], ok)] |}).
Proof.
  destruct (proj1 (layer_switch_clamped (-5) (connected reliable 2))
              reliable eq_refl) as (ok & E & _).
  exists ok. exact E.
Defined.

Lemma detect_version_range_witness :
  report_id (self (_detect_version
                     {| self := MiniKeyboard_init; wire := [] |}).2) = 3.
Proof.
  apply (proj2 (proj2 (proj2 (detect_version_range
                                {| self := MiniKeyboard_init; wire := [] |})))).
  reflexivity.
Defined.

Lemma disconnect_closes_witness :
  (set_led_mode 1 (set_basic_key 1 4 0 1
                     (disconnect (connected reliable 3)).2).2).2 =
  (disconnect (connected reliable 3)).2.
Proof.
  apply (proj1 (proj2 (proj2 (proj2 (proj2
           (disconnect_closes (connected reliable 3))))))).
  eapply rtc_l; [apply step_set_basic_key|].
  apply rtc_once, step_set_led_mode.
Defined.

Lemma main_set_errors_witness :
  (main_set "key13" "a" 1 (connected reliable 3)).2 = connected reliable 3 /\
  (main_set "key1" "ctrl+volup" 1 (connected reliable 3)).2
    = connected reliable 3.
Proof.
  split.
  - apply (proj2 (proj2 (proj2 (main_set_errors "key13" "a" 1
                                  (connected reliable 3))))).
    left. vm_compute. reflexivity.
  - apply (proj2 (proj2 (proj2 (main_set_errors "key1" "ctrl+volup" 1
                                  (connected reliable 3))))).
    right. vm_compute. reflexivity.
Defined.

Lemma main_session_witness :
  exists rid is_led,
    last (wire (main sample_env (ArgsLed 2)
                  {| self := MiniKeyboard_init; wire := [] |}).2)
    = Some (flash_frame rid is_led, true).
Proof.
  destruct (main_session sample_env (ArgsLed 2)
              {| self := MiniKeyboard_init; wire := [] |})
    as (_ & _ & tr & E & _ & _ & _ & _ & H).
  rewrite E. apply H. vm_compute. reflexivity.
Defined.
